(** * x-cookies: export and re-injection of session cookies

    A shallow embedding of [src/main.py] (extraction of the six session
    cookies, the export adapter and the bootstrap orchestrator) and of
    [src/inject_cookies.py] (loading of a persisted record, the import
    adapter and the injection run), with the properties of the
    specification stated over it.

    Python dictionaries with string keys are finite maps ([gmap string _]),
    the values decoded by [json.load] are the inductive [pyval], exceptions
    are the [Raise] branch of [result], and every effect on the browser, the
    file system or the log is an [event] of the trace a run produces. *)

From Stdlib Require Import ZArith QArith Qround Lia Lqa String Ascii List Bool.
From stdpp Require Import gmap strings list fin_maps.

Set Warnings "-register-all".
Open Scope string_scope.
Open Scope Z_scope.

(** ** The Python runtime as far as the two programs use it *)

Module Py.

(** Values that [json.load] can produce (and [json.dump] consume).
    A float is taken as the rational it denotes. *)
Inductive pyval : Type :=
| PyNone
| PyBool (b : bool)
| PyInt (z : Z)
| PyFloat (q : Q)
| PyStr (s : string)
| PyList (l : list pyval)
| PyDict (m : gmap string pyval).

(** The exception classes that occur in the two programs. *)
Inductive exn : Type :=
| SystemExit
| TypeError
| ValueError
| AttributeError
| RuntimeError
| OSError
| FileNotFoundError
| CalledProcessError
| PlaywrightError.

Inductive result (A : Type) : Type :=
| Ok (a : A)
| Raise (e : exn).
Arguments Ok {A} a.
Arguments Raise {A} e.

Definition rbind {A B} (r : result A) (k : A -> result B) : result B :=
  match r with
  | Ok a => k a
  | Raise e => Raise e
  end.

(** Truth value testing: [bool(v)], [not v], [v or d]. *)
Definition truthy (v : pyval) : bool :=
  match v with
  | PyNone => false
  | PyBool b => b
  | PyInt z => negb (z =? 0)
  | PyFloat q => negb (Qeq_bool q 0)
  | PyStr s => negb (bool_decide (s = ""))
  | PyList l => match l with [] => false | _ :: _ => true end
  | PyDict m => negb (bool_decide (m = ∅))
  end.

(** [v or d] *)
Definition py_or (v d : pyval) : pyval := if truthy v then v else d.

(** [d.get(k)] and [d.get(k, default)] on a dictionary. *)
Definition dict_get (d : gmap string pyval) (k : string) : pyval :=
  default PyNone (d !! k).

Definition dict_get_default (d : gmap string pyval) (k : string) (dflt : pyval) : pyval :=
  default dflt (d !! k).

(** [item.get(k)] on an arbitrary value: only a dict has the method. *)
Definition attr_get (item : pyval) (k : string) : result pyval :=
  match item with
  | PyDict d => Ok (dict_get d k)
  | _ => Raise AttributeError
  end.

(** [isinstance(v, int)]: [bool] is a subclass of [int]. *)
Definition isinstance_int (v : pyval) : option Z :=
  match v with
  | PyInt z => Some z
  | PyBool b => Some (if b then 1 else 0)
  | _ => None
  end.

(** [hash(v)] raises [TypeError] for lists and dicts. *)
Definition hashable (v : pyval) : bool :=
  match v with
  | PyList _ | PyDict _ => false
  | _ => true
  end.

(** [v in {s1, ..., sn}] for a set of strings. *)
Definition in_str_set (v : pyval) (labels : list string) : result bool :=
  match v with
  | PyStr s => Ok (bool_decide (s ∈ labels))
  | _ => if hashable v then Ok false else Raise TypeError
  end.

(** The double quote character. *)
Definition dquote : ascii := ascii_of_N 34.

(** [s.replace(old, new)] for a one-character [old]. *)
Fixpoint str_replace (old : ascii) (new : string) (s : string) : string :=
  match s with
  | EmptyString => EmptyString
  | String c rest =>
      if Ascii.eqb c old then new +:+ str_replace old new rest
      else String c (str_replace old new rest)
  end.

Fixpoint str_contains (c : ascii) (s : string) : bool :=
  match s with
  | EmptyString => false
  | String a rest => Ascii.eqb a c || str_contains c rest
  end.

(** *** Calendar arithmetic of [datetime] and [time.gmtime]

    The proleptic Gregorian ordinal of [datetime.py]: day 1 is 0001-01-01. *)

Definition is_leap (year : Z) : bool :=
  (year mod 4 =? 0) && (negb (year mod 100 =? 0) || (year mod 400 =? 0)).

Definition DAYS_IN_MONTH : list Z :=
  [-1; 31; 28; 31; 30; 31; 30; 31; 31; 30; 31; 30; 31].

Definition DAYS_BEFORE_MONTH : list Z :=
  [-1; 0; 31; 59; 90; 120; 151; 181; 212; 243; 273; 304; 334].

Definition table (t : list Z) (i : Z) : Z := nth (Z.to_nat i) t 0.

Definition days_before_year (year : Z) : Z :=
  let y := year - 1 in
  y * 365 + y / 4 - y / 100 + y / 400.

Definition days_in_month (year month : Z) : Z :=
  if (month =? 2) && is_leap year then 29 else table DAYS_IN_MONTH month.

Definition days_before_month (year month : Z) : Z :=
  table DAYS_BEFORE_MONTH month + (if (2 <? month) && is_leap year then 1 else 0).

Definition ymd2ord (year month day : Z) : Z :=
  days_before_year year + days_before_month year month + day.

Definition DI400Y : Z := 146097.
Definition DI100Y : Z := 36524.
Definition DI4Y : Z := 1461.

Definition ord2ymd (ordinal : Z) : Z * Z * Z :=
  let n := ordinal - 1 in
  let n400 := n / DI400Y in
  let n := n mod DI400Y in
  let year := n400 * 400 + 1 in
  let n100 := n / DI100Y in
  let n := n mod DI100Y in
  let n4 := n / DI4Y in
  let n := n mod DI4Y in
  let n1 := n / 365 in
  let n := n mod 365 in
  let year := year + n100 * 100 + n4 * 4 + n1 in
  if (n1 =? 4) || (n100 =? 4) then (year - 1, 12, 31)
  else
    let leapyear := (n1 =? 3) && (negb (n4 =? 24) || (n100 =? 3)) in
    let month := Z.shiftr (n + 50) 5 in
    let preceding :=
      table DAYS_BEFORE_MONTH month + (if (2 <? month) && leapyear then 1 else 0) in
    if n <? preceding then
      let month := month - 1 in
      let preceding :=
        preceding
        - (table DAYS_IN_MONTH month + (if (month =? 2) && leapyear then 1 else 0)) in
      (year, month, n - preceding + 1)
    else (year, month, n - preceding + 1).

(** The ordinal of 1970-01-01. *)
Definition EPOCH_ORDINAL : Z := 719163.

(** Broken-down UTC time. *)
Record struct_time : Type := mk_time {
  tm_year : Z; tm_mon : Z; tm_mday : Z; tm_hour : Z; tm_min : Z; tm_sec : Z
}.

(** [time.gmtime(secs)] for a whole number of seconds. *)
Definition gmtime (secs : Z) : struct_time :=
  let days := secs / 86400 in
  let rem := secs mod 86400 in
  let '(y, m, d) := ord2ymd (days + EPOCH_ORDINAL) in
  mk_time y m d (rem / 3600) (rem mod 3600 / 60) (rem mod 60).

(** [datetime(...)]: the constructor refuses fields out of range. *)
Definition datetime (y m d hh mm ss : Z) : result struct_time :=
  if (1 <=? y) && (y <=? 9999) && (1 <=? m) && (m <=? 12)
     && (1 <=? d) && (d <=? days_in_month y m)
     && (0 <=? hh) && (hh <=? 23) && (0 <=? mm) && (mm <=? 59)
     && (0 <=? ss) && (ss <=? 59)
  then Ok (mk_time y m d hh mm ss)
  else Raise ValueError.

(** [dt.replace(tzinfo=timezone.utc).timestamp()], a whole number. *)
Definition timestamp (t : struct_time) : Z :=
  (ymd2ord (tm_year t) (tm_mon t) (tm_mday t) - EPOCH_ORDINAL) * 86400
  + tm_hour t * 3600 + tm_min t * 60 + tm_sec t.

(** *** Decimal text: [int(s)], [%Y] and [%02d] *)

Definition digit_val (c : ascii) : Z := Z.of_N (N_of_ascii c) - 48.

Definition digit_char (n : Z) : ascii := ascii_of_N (Z.to_N (48 + n)).

Fixpoint int_digits (acc : Z) (s : string) : Z :=
  match s with
  | EmptyString => acc
  | String c rest => int_digits (acc * 10 + digit_val c) rest
  end.

(** ASCII white space, as [str.strip] and [int] skip it. *)
Definition is_space (c : ascii) : bool :=
  let n := N_of_ascii c in
  ((9 <=? n)%N && (n <=? 13)%N) || ((28 <=? n)%N && (n <=? 32)%N).

Fixpoint lstrip (s : string) : string :=
  match s with
  | String c rest => if is_space c then lstrip rest else s
  | EmptyString => EmptyString
  end.

Fixpoint rstrip (s : string) : string :=
  match s with
  | String c rest =>
      match rstrip rest with
      | EmptyString => if is_space c then EmptyString else String c EmptyString
      | kept => String c kept
      end
  | EmptyString => EmptyString
  end.

(** [s.strip()] *)
Definition strip (s : string) : string := rstrip (lstrip s).

(** [int(s)] on a run of decimal digits, leading white space ignored. *)
Definition py_int (s : string) : Z := int_digits 0 (lstrip s).

Fixpoint decimal_aux (fuel : nat) (n : Z) (acc : string) : string :=
  match fuel with
  | O => acc
  | S fuel' =>
      let acc' := String (digit_char (n mod 10)) acc in
      if n / 10 =? 0 then acc' else decimal_aux fuel' (n / 10) acc'
  end.

(** [%d] of a number. *)
Definition decimal (n : Z) : string :=
  if n <? 0 then String "-" (decimal_aux (S (Z.to_nat (Z.log2 (- n)))) (- n) "")
  else decimal_aux (S (Z.to_nat (Z.log2 n))) n "".

(** [%02d] of a field of a broken-down time (always below 100). *)
Definition pad2 (n : Z) : string :=
  String (digit_char (n / 10)) (String (digit_char (n mod 10)) "").

(** [time.strftime("%Y-%m-%dT%H:%M:%SZ", t)] *)
Definition strftime_iso (t : struct_time) : string :=
  decimal (tm_year t) +:+ "-" +:+ pad2 (tm_mon t) +:+ "-" +:+ pad2 (tm_mday t)
  +:+ "T" +:+ pad2 (tm_hour t) +:+ ":" +:+ pad2 (tm_min t) +:+ ":"
  +:+ pad2 (tm_sec t) +:+ "Z".

(** *** The regular expression [_strptime] builds for the format

    A matcher returns every way to match a prefix of the text, in the
    priority order of a backtracking engine, each with the captured text
    and the unread rest.  Text is a string of ASCII characters, so [\d] is
    one of the ten digits. *)

Definition matcher (A : Type) : Type := string -> list (A * string).

Definition m_ret {A} (a : A) : matcher A := fun s => [(a, s)].

Definition m_bind {A B} (m : matcher A) (k : A -> matcher B) : matcher B :=
  fun s => flat_map (fun ar => k (fst ar) (snd ar)) (m s).

Definition m_alt {A} (a b : matcher A) : matcher A := fun s => (a s ++ b s)%list.

Definition m_char (p : ascii -> bool) : matcher string :=
  fun s =>
    match s with
    | String c rest => if p c then [(String c "", rest)] else []
    | EmptyString => []
    end.

Definition m_seq (a b : matcher string) : matcher string :=
  m_bind a (fun x => m_bind b (fun y => m_ret (x +:+ y))).

(** [[lo-hi]] *)
Definition between (lo hi : ascii) : ascii -> bool :=
  fun c => (N_of_ascii lo <=? N_of_ascii c)%N && (N_of_ascii c <=? N_of_ascii hi)%N.

(** [\d] *)
Definition is_digit : ascii -> bool := between "0" "9".

Definition lower (c : ascii) : ascii :=
  if between "A" "Z" c then ascii_of_N (N_of_ascii c + 32) else c.

(** [s.lower()] *)
Fixpoint str_lower (s : string) : string :=
  match s with
  | EmptyString => EmptyString
  | String c rest => String (lower c) (str_lower rest)
  end.

(** A literal character under [re.IGNORECASE]. *)
Definition literal (l : ascii) : ascii -> bool :=
  fun c => Ascii.eqb (lower c) (lower l).

Definition only (l : ascii) : ascii -> bool := fun c => Ascii.eqb c l.

(** [(?P<Y>\d\d\d\d)] *)
Definition group_Y : matcher string :=
  m_seq (m_char is_digit)
    (m_seq (m_char is_digit) (m_seq (m_char is_digit) (m_char is_digit))).

(** [(?P<m>1[0-2]|0[1-9]|[1-9])] *)
Definition group_m : matcher string :=
  m_alt (m_seq (m_char (only "1")) (m_char (between "0" "2")))
    (m_alt (m_seq (m_char (only "0")) (m_char (between "1" "9")))
       (m_char (between "1" "9"))).

(** [(?P<d>3[0-1]|[1-2]\d|0[1-9]|[1-9]| [1-9])] *)
Definition group_d : matcher string :=
  m_alt (m_seq (m_char (only "3")) (m_char (between "0" "1")))
    (m_alt (m_seq (m_char (between "1" "2")) (m_char is_digit))
       (m_alt (m_seq (m_char (only "0")) (m_char (between "1" "9")))
          (m_alt (m_char (between "1" "9"))
             (m_seq (m_char (only " ")) (m_char (between "1" "9")))))).

(** [(?P<H>2[0-3]|[0-1]\d|\d)] *)
Definition group_H : matcher string :=
  m_alt (m_seq (m_char (only "2")) (m_char (between "0" "3")))
    (m_alt (m_seq (m_char (between "0" "1")) (m_char is_digit))
       (m_char is_digit)).

(** [(?P<M>[0-5]\d|\d)] *)
Definition group_M : matcher string :=
  m_alt (m_seq (m_char (between "0" "5")) (m_char is_digit)) (m_char is_digit).

(** [(?P<S>6[0-1]|[0-5]\d|\d)] *)
Definition group_S : matcher string :=
  m_alt (m_seq (m_char (only "6")) (m_char (between "0" "1")))
    (m_alt (m_seq (m_char (between "0" "5")) (m_char is_digit))
       (m_char is_digit)).

(** The compiled pattern of ["%Y-%m-%dT%H:%M:%SZ"]. *)
Definition format_regex : matcher (string * string * string * string * string * string) :=
  m_bind group_Y (fun gY =>
  m_bind (m_char (literal "-")) (fun _ =>
  m_bind group_m (fun gm =>
  m_bind (m_char (literal "-")) (fun _ =>
  m_bind group_d (fun gd =>
  m_bind (m_char (literal "T")) (fun _ =>
  m_bind group_H (fun gH =>
  m_bind (m_char (literal ":")) (fun _ =>
  m_bind group_M (fun gM =>
  m_bind (m_char (literal ":")) (fun _ =>
  m_bind group_S (fun gS =>
  m_bind (m_char (literal "Z")) (fun _ =>
  m_ret (gY, gm, gd, gH, gM, gS))))))))))))).

(** [datetime.strptime(s, "%Y-%m-%dT%H:%M:%SZ")]: the first match of the
    pattern must reach the end of the text, and its fields must make a
    date. *)
Definition strptime_iso (s : string) : result struct_time :=
  match format_regex s with
  | [] => Raise ValueError
  | ((gY, gm, gd, gH, gM, gS), rest) :: _ =>
      match rest with
      | EmptyString =>
          datetime (py_int gY) (py_int gm) (py_int gd)
                   (py_int gH) (py_int gM) (py_int gS)
      | String _ _ => Raise ValueError
      end
  end.

(** *** Effects

    A run leaves a trace of the calls it makes to the log, the browser,
    the file system and the process table.  A computation reads and
    updates the state of the run, appends to the trace, and returns or
    raises.  Logged messages are kept by level only. *)

Inductive level : Type := INFO | WARNING | ERROR | SUCCESS | EXCEPTION.

Inductive event : Type :=
| Log (lvl : level)
| Mkdir (path : string)
| ConnectOverCdp (endpoint : string)
| NewPage
| ClosePage (index : nat)
| Goto (url : string)
| WaitForTimeout (ms : Z)
| WaitForSelector (selector : string) (timeout : Z)
| ReadCookies
| AddCookies (cookies : list (gmap string pyval))
| CloseBrowser
| OpenRead (path : string)
| WriteFile (path : string) (payload : list (gmap string pyval))
| RunProcess (cmd : list string).

(** What the authenticated-only probe of a page can observe. *)
Inductive probe : Type :=
| SignalFound
| SignalTimeout
| NavigationFailed.

(** The state of a run: the pages open in the first browser context, the
    number of probes made so far, and whether the local variable holding
    the browser handle is bound. *)
Record state : Type := mk_state {
  pages : nat;
  probes_done : nat;
  browser_bound : bool
}.

Definition M (A : Type) : Type := state -> list event * result A * state.

Definition ret {A} (a : A) : M A := fun st => ([], Ok a, st).

Definition raise {A} (e : exn) : M A := fun st => ([], Raise e, st).

Definition lift {A} (r : result A) : M A := fun st => ([], r, st).

Definition emit (e : event) : M unit := fun st => ([e], Ok tt, st).

Definition get_state : M state := fun st => ([], Ok st, st).

Definition put_state (st' : state) : M unit := fun _ => ([], Ok tt, st').

Definition bind {A B} (m : M A) (k : A -> M B) : M B :=
  fun st =>
    match m st with
    | (t, Ok a, st') =>
        match k a st' with
        | (t', r, st'') => ((t ++ t')%list, r, st'')
        end
    | (t, Raise e, st') => (t, Raise e, st')
    end.

Declare Scope run_scope.
Delimit Scope run_scope with run.
Notation "x <- m ;; k" := (bind m (fun x => k))
  (at level 100, m at next level, k at level 200, right associativity) : run_scope.
Notation "m ;; k" := (bind m (fun _ => k))
  (at level 100, k at level 200, right associativity) : run_scope.

(** [SystemExit] derives from [BaseException] only; [except Exception]
    does not catch it. *)
Definition is_Exception (e : exn) : bool :=
  match e with
  | SystemExit => false
  | _ => true
  end.

(** [try: body  except Exception as exc: handler] *)
Definition try_except {A} (body : M A) (handler : exn -> M A) : M A :=
  fun st =>
    match body st with
    | (t, Raise e, st') =>
        if is_Exception e then
          match handler e st' with
          | (t', r, st'') => ((t ++ t')%list, r, st'')
          end
        else (t, Raise e, st')
    | done => done
    end.

(** [try: body  finally: cleanup] *)
Definition try_finally {A} (body : M A) (cleanup : M unit) : M A :=
  fun st =>
    match body st with
    | (t, r, st') =>
        match cleanup st' with
        | (t', Ok _, st'') => ((t ++ t')%list, r, st'')
        | (t', Raise e, st'') => ((t ++ t')%list, Raise e, st'')
        end
    end.

Definition trace {A} (run : list event * result A * state) : list event :=
  fst (fst run).

Definition outcome {A} (run : list event * result A * state) : result A :=
  snd (fst run).

Definition initial (open_pages : nat) : state := mk_state open_pages 0 false.

End Py.

(** ** [src/inject_cookies.py] *)

Module inject_cookies.
Import Py.
Local Open Scope run_scope.

(** The parsed command line ([parse_args]). *)
Record args : Type := mk_args {
  cookie_file : option string;
  endpoint : string;
  username : string
}.

(** What reading a file as JSON gives. *)
Inductive content : Type :=
| Unreadable
| NotJson
| Json (data : pyval).

(** The surroundings of a run. *)
Record world : Type := mk_world {
  COOKIES_DIR : string;
  file_exists : string -> bool;
  file_content : string -> content;
  cdp_reachable : bool;
  has_context : bool;
  open_pages : nat;
  cookies_accepted : list (gmap string pyval) -> bool;
  navigation_ok : bool
}.

Definition resolve_cookie_file (w : world) (a : args) : result string :=
  match cookie_file a with
  | Some path => Ok path
  | None =>
      if bool_decide (username a = EmptyString) then Raise SystemExit
      else
        let candidate :=
          COOKIES_DIR w +:+ "/" +:+ username a +:+ "_twitter_cookies.json" in
        if negb (file_exists w candidate) then Raise SystemExit
        else Ok candidate
  end.

Definition load_cookies (w : world) (path : string) : M (list pyval) :=
  emit (OpenRead path);;
  match file_content w path with
  | Unreadable => raise OSError
  | NotJson => raise SystemExit
  | Json data =>
      match data with
      | PyList l => ret l
      | _ => raise SystemExit
      end
  end.

Definition iso_to_epoch (ts : pyval) : result Z :=
  if negb (truthy ts) then Ok 0
  else
    match ts with
    | PyStr s =>
        match strptime_iso s with
        | Ok t => Ok (timestamp t)
        | Raise ValueError => Ok 0
        | Raise e => Raise e
        end
    | _ => Raise TypeError
    end.

Definition same_site_map : gmap Z string :=
  <[0 := "Lax"]> (<[1 := "Strict"]> (<[2 := "None"]> ∅)).

Definition adapt_cookie (cookie : pyval) : result (gmap string pyval) :=
  match cookie with
  | PyDict cookie =>
      let adapted : gmap string pyval :=
        <["name" := dict_get_default cookie "Name" (PyStr EmptyString)]>
        (<["value" := dict_get_default cookie "Value" (PyStr EmptyString)]>
        (<["domain" := py_or (dict_get cookie "Domain") (PyStr ".x.com")]>
        (<["path" := py_or (dict_get cookie "Path") (PyStr "/")]>
        (<["secure" :=
             PyBool (truthy (dict_get_default cookie "Secure" (PyBool true)))]>
        (<["httpOnly" :=
             PyBool (truthy (dict_get_default cookie "HttpOnly" (PyBool false)))]>
        (<["sameSite" := dict_get cookie "SameSite"]> ∅)))))) in
      let adapted :=
        match isinstance_int (dict_get adapted "sameSite") with
        | Some z =>
            <["sameSite" := PyStr (default "Lax" (same_site_map !! z))]> adapted
        | None => adapted
        end in
      rbind (in_str_set (dict_get adapted "sameSite") ["Lax"; "Strict"; "None"])
        (fun valid =>
      let adapted := if negb valid then delete "sameSite" adapted else adapted in
      rbind (iso_to_epoch (dict_get cookie "Expires")) (fun expires =>
      if 0 <? expires then Ok (<["expires" := PyInt expires]> adapted)
      else Ok (delete "expires" adapted)))
  | _ => Raise AttributeError
  end.

Definition ensure_context (w : world) : M unit :=
  if negb (has_context w) then raise RuntimeError
  else
    st <- get_state;;
    match pages st with
    | O => emit NewPage;; put_state (mk_state 1 (probes_done st) (browser_bound st))
    | S _ => ret tt
    end.

(** [[adapt_cookie(item) for item in cookies if item.get("Name")]] *)
Fixpoint adapted_named (cookies : list pyval) : result (list (gmap string pyval)) :=
  match cookies with
  | [] => Ok []
  | item :: rest =>
      rbind (attr_get item "Name") (fun name =>
      if truthy name then
        rbind (adapt_cookie item) (fun cookie =>
        rbind (adapted_named rest) (fun others => Ok (cookie :: others)))
      else adapted_named rest)
  end.

Definition inject_and_open (w : world) (endpoint : string) (cookies : list pyval)
  : M unit :=
  emit (Log INFO);;
  emit (ConnectOverCdp endpoint);;
  (if cdp_reachable w then ret tt else raise PlaywrightError);;
  ensure_context w;;
  adapted <- lift (adapted_named cookies);;
  match adapted with
  | [] => raise SystemExit
  | _ :: _ =>
      emit (Log INFO);;
      emit (AddCookies adapted);;
      (if cookies_accepted w adapted then ret tt else raise PlaywrightError);;
      emit (Log SUCCESS);;
      emit (Goto "https://x.com");;
      (if navigation_ok w then ret tt else raise PlaywrightError);;
      emit (Log SUCCESS);;
      emit CloseBrowser
  end.

Definition main (w : world) (a : args) : M unit :=
  cookie_file <- lift (resolve_cookie_file w a);;
  cookies <- load_cookies w cookie_file;;
  emit (Log INFO);;
  inject_and_open w (endpoint a) cookies.

End inject_cookies.

(** ** [src/main.py] *)

Module main.
Import Py.
Local Open Scope run_scope.

Definition COOKIE_NAMES : list string :=
  ["personalization_id"; "kdt"; "twid"; "ct0"; "auth_token"; "att"].

(** A cookie of the live session as [context.cookies()] lists it. *)
Record browser_cookie : Type := mk_cookie {
  name : string;
  value : string;
  domain : string
}.

(** How the external validator ends. *)
Inductive process : Type :=
| Exited (code : Z)
| NotExecutable.

(** The readings of the clock and of the random source one export
    takes: one pair for the one-week date, one for the one-month date. *)
Record draws : Type := mk_draws {
  week_clock : Q;
  week_jitter : Q;
  month_clock : Q;
  month_jitter : Q
}.

(** The surroundings of a run. *)
Record world : Type := mk_world {
  environ : gmap string string;
  PROJECT_ROOT : string;
  PROJECT_PARENT : string;
  cdp_reachable : bool;
  has_context : bool;
  open_pages : nat;
  probes : nat -> probe;
  jar : list browser_cookie;
  cookies_accepted : list (gmap string pyval) -> bool;
  login_clock : Q;
  export_draws : draws;
  output_writable : bool;
  scraper_binary_exists : bool;
  scraper_run : process
}.

(** [os.getenv(key, dflt)] *)
Definition getenv (w : world) (key dflt : string) : string :=
  default dflt (environ w !! key).

(** The module constant [OUTPUT_DIR]. *)
Definition OUTPUT_DIR (w : world) : string :=
  if String.eqb (str_lower (getenv w "RUNNING_IN_DOCKER" "false")) "true"
  then "/app/cookies"
  else PROJECT_PARENT w +:+ "/cookies".

Definition resolve_output_dir (w : world) : M string :=
  emit (Log INFO);;
  emit (Mkdir (OUTPUT_DIR w));;
  ret (OUTPUT_DIR w).

Definition get_future_date (days : Z) (now jitter : Q) : string :=
  strftime_iso (gmtime (Qfloor (now + inject_Z (days * 24 * 3600) + jitter))).

Definition create_cookie_template (name value expires : string)
  : gmap string pyval :=
  <["Name" := PyStr name]>
  (<["Value" := PyStr (str_replace dquote EmptyString value)]>
  (<["Path" := PyStr EmptyString]>
  (<["Domain" := PyStr "twitter.com"]>
  (<["Expires" := PyStr expires]>
  (<["RawExpires" := PyStr EmptyString]>
  (<["MaxAge" := PyInt 0]>
  (<["Secure" := PyBool false]>
  (<["HttpOnly" := PyBool false]>
  (<["SameSite" := PyInt 0]>
  (<["Raw" := PyStr EmptyString]>
  (<["Unparsed" := PyNone]> ∅))))))))))).

Definition build_cookie_payload (cookie_values : gmap string string) (d : draws)
  : list (gmap string pyval) :=
  let one_week := get_future_date 7 (week_clock d) (week_jitter d) in
  let one_month := get_future_date 30 (month_clock d) (month_jitter d) in
  map (fun name =>
         let expires :=
           if bool_decide (name ∈ ["personalization_id"; "kdt"])
           then one_month else one_week in
         create_cookie_template name
           (default EmptyString (cookie_values !! name)) expires)
      COOKIE_NAMES.

Definition save_cookies (w : world) (username : string)
    (cookies_payload : list (gmap string pyval)) : M string :=
  let output_path := OUTPUT_DIR w +:+ "/" +:+ username +:+ "_twitter_cookies.json" in
  (if output_writable w then ret tt else raise OSError);;
  emit (WriteFile output_path cookies_payload);;
  emit (Log SUCCESS);;
  ret output_path.

(** The values [extract_cookies] collects: the first cookie of the jar
    with the name, the empty string when there is none. *)
Definition first_match (cookies : list browser_cookie) (n : string)
  : option browser_cookie :=
  find (fun item => String.eqb (name item) n) cookies.

Definition extracted_value (cookies : list browser_cookie) (n : string) : string :=
  match first_match cookies n with
  | Some item => value item
  | None => EmptyString
  end.

Fixpoint extract_loop (cookies : list browser_cookie) (names : list string)
    (cookie_values : gmap string string) : M (gmap string string) :=
  match names with
  | [] => ret cookie_values
  | n :: rest =>
      let cookie_values := <[n := extracted_value cookies n]> cookie_values in
      (if bool_decide (extracted_value cookies n = EmptyString)
       then emit (Log WARNING) else emit (Log INFO));;
      extract_loop cookies rest cookie_values
  end.

Definition extract_cookies (w : world) : M (gmap string string) :=
  emit ReadCookies;;
  extract_loop (jar w) COOKIE_NAMES ∅.

Definition connect_existing_browser (w : world) : M unit :=
  let endpoint := getenv w "CDP_ENDPOINT" "http://localhost:9222" in
  emit (Log INFO);;
  emit (ConnectOverCdp endpoint);;
  (if cdp_reachable w then ret tt else raise PlaywrightError);;
  (if negb (has_context w) then raise RuntimeError else ret tt);;
  st <- get_state;;
  match pages st with
  | O => emit NewPage;; put_state (mk_state 1 (probes_done st) (browser_bound st))
  | S _ => ret tt
  end;;
  emit (Log INFO).

Fixpoint close_extra (index count : nat) : M unit :=
  match count with
  | O => ret tt
  | S count' => emit (ClosePage index);; close_extra (S index) count'
  end.

Definition get_primary_page : M unit :=
  st <- get_state;;
  close_extra 1 (Nat.pred (pages st));;
  match pages st with
  | O => emit NewPage
  | S _ => ret tt
  end;;
  put_state (mk_state 1 (probes_done st) (browser_bound st)).

Definition is_logged_in (w : world) (timeout : Z) : M bool :=
  get_primary_page;;
  st <- get_state;;
  put_state (mk_state (pages st) (S (probes_done st)) (browser_bound st));;
  emit (Goto "https://x.com/home");;
  match probes w (probes_done st) with
  | NavigationFailed => raise PlaywrightError
  | seen =>
      emit (WaitForTimeout 3000);;
      emit (WaitForSelector
              ("span:has-text(" +:+ String dquote "Post" +:+ String dquote ")")
              timeout);;
      match seen with
      | SignalFound => ret true
      | _ => ret false
      end
  end.

(** [int(x)] of a float: truncation towards zero. *)
Definition int_of_float (q : Q) : Z :=
  if Qle_bool 0 q then Qfloor q else Qceiling q.

Definition login_with_token (w : world) (auth_token : string) : M bool :=
  get_primary_page;;
  emit (Log INFO);;
  emit (Goto "https://x.com");;
  emit (WaitForTimeout 5000);;
  let expiration_time := int_of_float (login_clock w) + 365 * 24 * 60 * 60 in
  let cookie : gmap string pyval :=
    <["name" := PyStr "auth_token"]>
    (<["value" := PyStr auth_token]>
    (<["domain" := PyStr ".x.com"]>
    (<["path" := PyStr "/"]>
    (<["expires" := PyInt expiration_time]>
    (<["secure" := PyBool true]>
    (<["httpOnly" := PyBool false]>
    (<["sameSite" := PyStr "Lax"]> ∅))))))) in
  emit (AddCookies [cookie]);;
  (if cookies_accepted w [cookie] then ret tt else raise PlaywrightError);;
  emit (Log INFO);;
  logged <- is_logged_in w 10000;;
  if logged : bool then emit (Log SUCCESS);; ret true
  else emit (Log ERROR);; ret false.

Definition run_scraper_smoke_test (w : world) (cookie_path username : string)
  : M unit :=
  if String.eqb (str_lower (getenv w "SKIP_SCRAPER_TEST" EmptyString)) "true"
  then emit (Log INFO)
  else
    let query :=
      match environ w !! "SCRAPER_TEST_QUERY" with
      | Some q => if bool_decide (q = EmptyString) then "from:" +:+ username else q
      | None => "from:" +:+ username
      end in
    let count := getenv w "SCRAPER_TEST_COUNT" "5" in
    let binary_path := PROJECT_ROOT w +:+ "/twitter-scraper/twitter-scraper" in
    if negb (scraper_binary_exists w)
    then emit (Log ERROR);; raise FileNotFoundError
    else
      let cmd :=
        [binary_path; "-cookies"; cookie_path; "-query"; query;
         "-count"; count; "-json"] in
      let proxy := strip (getenv w "TERMINAL_RPOXY" EmptyString) in
      let cmd :=
        if bool_decide (proxy = EmptyString) then cmd
        else (cmd ++ ["-proxy"; proxy])%list in
      emit (Log INFO);;
      emit (RunProcess cmd);;
      match scraper_run w with
      | Exited 0 => emit (Log SUCCESS)
      | NotExecutable => emit (Log ERROR);; raise FileNotFoundError
      | Exited _ => emit (Log ERROR);; raise CalledProcessError
      end.

(** How the body of [main] is left: by falling off its end or by one of
    its [return] statements. *)
Inductive exit : Type :=
| FellThrough
| Returned.

(** [[name for name, value in cookies.items() if not value]] *)
Definition missing_names (cookies : gmap string string) : list string :=
  map fst (filter (fun item => snd item = EmptyString) (map_to_list cookies)).

Definition main (w : world) : M unit :=
  let username := strip (getenv w "X_ACCOUNT" EmptyString) in
  if bool_decide (username = EmptyString) then emit (Log ERROR)
  else
    let auth_token := strip (getenv w "X_AUTH_TOKEN" EmptyString) in
    (if bool_decide (auth_token = EmptyString) then emit (Log WARNING) else ret tt);;
    emit (Log INFO);;
    how <-
      try_finally
        (try_except
           (connect_existing_browser w;;
            st <- get_state;;
            put_state (mk_state (pages st) (probes_done st) true);;
            logged <- is_logged_in w 10000;;
            proceed <-
              (if logged : bool then emit (Log SUCCESS);; ret true
               else
                 emit (Log INFO);;
                 if bool_decide (auth_token = EmptyString)
                 then emit (Log ERROR);; ret false
                 else
                   ok <- login_with_token w auth_token;;
                   if ok : bool then ret true
                   else emit (Log ERROR);; ret false);;
            if proceed : bool then
              cookies <- extract_cookies w;;
              match missing_names cookies with
              | _ :: _ => emit (Log ERROR);; ret Returned
              | [] =>
                  let payload := build_cookie_payload cookies (export_draws w) in
                  cookie_path <- save_cookies w username payload;;
                  run_scraper_smoke_test w cookie_path username;;
                  ret FellThrough
              end
            else ret Returned)
           (fun exc => emit (Log EXCEPTION);; ret FellThrough))
        (st <- get_state;;
         if browser_bound st then emit CloseBrowser else ret tt);;
    match how with
    | FellThrough => emit (Log SUCCESS)
    | Returned => ret tt
    end.

End main.

(** ** Calendar arithmetic: an ordinal and its date *)

Section Calendar.
Import Py.

(** The month and day [ord2ymd] finds for day [n] of a year. *)
Definition month_day (leap : bool) (n : Z) : Z * Z :=
  let month := Z.shiftr (n + 50) 5 in
  let preceding :=
      table DAYS_BEFORE_MONTH month + (if (2 <? month) && leap then 1 else 0) in
  if n <? preceding then
      let month := month - 1 in
      let preceding :=
        preceding
        - (table DAYS_IN_MONTH month + (if (month =? 2) && leap then 1 else 0)) in
      (month, n - preceding + 1)
  else (month, n - preceding + 1).

(** That month and day are a date of the year, [n] days after its first. *)
Definition month_day_ok (leap : bool) (n : Z) : bool :=
  let '(m, d) := month_day leap n in
  (1 <=? m) && (m <=? 12) && (1 <=? d)
  && (d <=? (if (m =? 2) && leap then 29 else table DAYS_IN_MONTH m))
  && (table DAYS_BEFORE_MONTH m + (if (2 <? m) && leap then 1 else 0) + d =? n + 1).

Fixpoint all_below (k : nat) (p : Z -> bool) : bool :=
  match k with
  | O => true
  | S k' => p (Z.of_nat k') && all_below k' p
  end.

Lemma all_below_spec k p : all_below k p = true -> forall z, 0 <= z < Z.of_nat k -> p z = true.
Proof.
  induction k as [|k IH]; simpl; intros H z Hz; [lia|].
  apply andb_prop in H as [H1 H2].
  destruct (Z.eq_dec z (Z.of_nat k)) as [->|Hne]; [exact H1|].
  apply IH; [exact H2|lia].
Qed.

Lemma month_day_common n : 0 <= n < 365 -> month_day_ok false n = true.
Proof. apply (all_below_spec 365 (month_day_ok false)). vm_compute. reflexivity. Qed.

Lemma month_day_leap n : 0 <= n < 366 -> month_day_ok true n = true.
Proof. apply (all_below_spec 366 (month_day_ok true)). vm_compute. reflexivity. Qed.

Ltac bool_to_Z H :=
  repeat rewrite ?andb_true_iff, ?orb_true_iff, ?negb_true_iff, ?andb_false_iff,
    ?orb_false_iff, ?negb_false_iff, ?Z.eqb_eq, ?Z.eqb_neq, ?Z.ltb_lt, ?Z.ltb_ge,
    ?Z.leb_le, ?Z.leb_gt in H.

Lemma cycle_year n400 n100 n4 n1 :
  0 <= n400 -> 0 <= n100 <= 3 -> 0 <= n4 <= 24 -> 0 <= n1 <= 3 ->
  let year := n400 * 400 + 1 + n100 * 100 + n4 * 4 + n1 in
  is_leap year = (n1 =? 3) && (negb (n4 =? 24) || (n100 =? 3))
  /\ days_before_year year = 146097 * n400 + 36524 * n100 + 1461 * n4 + 365 * n1.
Proof.
  intros H400 H100 H4 H1 year. subst year. split.
  - unfold is_leap.
    destruct ((n1 =? 3) && (negb (n4 =? 24) || (n100 =? 3))) eqn:E; bool_to_Z E.
    + apply andb_true_iff. split.
      * apply Z.eqb_eq. Z.div_mod_to_equations. lia.
      * apply orb_true_iff. destruct (Z.eq_dec n4 24) as [E4|E4].
        -- right. apply Z.eqb_eq. Z.div_mod_to_equations. lia.
        -- left. apply negb_true_iff, Z.eqb_neq. Z.div_mod_to_equations. lia.
    + apply andb_false_iff.
      destruct (Z.eq_dec n1 3) as [E3|E3];
        [|left; apply Z.eqb_neq; Z.div_mod_to_equations; lia].
      destruct E as [E|[E1 E2]]; [lia|].
      right. apply orb_false_iff. split.
      * apply negb_false_iff, Z.eqb_eq. Z.div_mod_to_equations. lia.
      * apply Z.eqb_neq. Z.div_mod_to_equations. lia.
  - unfold days_before_year. cbv zeta. Z.div_mod_to_equations. lia.
Qed.

Lemma ord2ymd_spec n :
  1 <= n ->
  let '(y, m, d) := ord2ymd n in
  ymd2ord y m d = n /\ 1 <= m <= 12 /\ 1 <= d <= days_in_month y m
  /\ (719163 <= n < 3652060 -> 1970 <= y <= 9999).
Proof.
  intros Hn. unfold ord2ymd, DI400Y, DI100Y, DI4Y.
  set (n0 := n - 1).
  set (n400 := n0 / 146097). set (r1 := n0 mod 146097).
  set (n100 := r1 / 36524). set (r2 := r1 mod 36524).
  set (n4 := r2 / 1461). set (r3 := r2 mod 1461).
  set (n1 := r3 / 365). set (r4 := r3 mod 365).
  cbv zeta.
  assert (E1 : n0 = 146097 * n400 + r1 /\ 0 <= r1 < 146097)
    by (subst n400 r1; split; [apply Z.div_mod; lia | apply Z.mod_pos_bound; lia]).
  assert (E2 : r1 = 36524 * n100 + r2 /\ 0 <= r2 < 36524)
    by (subst n100 r2; split; [apply Z.div_mod; lia | apply Z.mod_pos_bound; lia]).
  assert (E3 : r2 = 1461 * n4 + r3 /\ 0 <= r3 < 1461)
    by (subst n4 r3; split; [apply Z.div_mod; lia | apply Z.mod_pos_bound; lia]).
  assert (E4 : r3 = 365 * n1 + r4 /\ 0 <= r4 < 365)
    by (subst n1 r4; split; [apply Z.div_mod; lia | apply Z.mod_pos_bound; lia]).
  assert (H400 : 0 <= n400) by (subst n400; apply Z.div_pos; lia).
  assert (H100 : 0 <= n100 <= 4) by lia.
  assert (H4 : 0 <= n4 <= 24) by lia.
  assert (H1 : 0 <= n1 <= 4) by lia.
  clearbody n400 r1 n100 r2 n4 r3 n1 r4.
  destruct ((n1 =? 4) || (n100 =? 4)) eqn:Hlast.
  - (* the last day of a four-year or four-century cycle *)
    unfold ymd2ord, days_before_year, days_before_month, days_in_month, is_leap.
    change (table DAYS_BEFORE_MONTH 12) with 334.
    change (table DAYS_IN_MONTH 12) with 31.
    change (2 <? 12) with true. change (12 =? 2) with false. cbv iota beta. simpl andb.
    apply orb_prop in Hlast.
    destruct Hlast as [Hl|Hl]; apply Z.eqb_eq in Hl.
    + assert (r4 = 0) by lia.
      destruct (_ && _) eqn:Hleap; repeat split; try lia.
      all: try bool_to_Z Hleap.
      all: Z.div_mod_to_equations; lia.
    + assert (r2 = 0) by lia.
      destruct (_ && _) eqn:Hleap; repeat split; try lia.
      all: try bool_to_Z Hleap.
      all: Z.div_mod_to_equations; lia.
  - bool_to_Z Hlast. destruct Hlast as [Hl1 Hl100].
    destruct (cycle_year n400 n100 n4 n1) as [Hleap Hdby]; try lia.
    set (year := n400 * 400 + 1 + n100 * 100 + n4 * 4 + n1) in *.
    set (leap := (n1 =? 3) && (negb (n4 =? 24) || (n100 =? 3))) in *.
    assert (Hmd : month_day_ok leap r4 = true)
      by (destruct leap; [apply month_day_leap | apply month_day_common]; lia).
    unfold month_day_ok, month_day in Hmd. cbv zeta in Hmd.
    assert (Hyear : 719163 <= n < 3652060 -> 1970 <= year <= 9999)
      by (subst year; lia).
    destruct (r4 <? _) eqn:Hest.
    + bool_to_Z Hmd. unfold ymd2ord, days_before_month, days_in_month.
      rewrite Hleap, Hdby. lia.
    + bool_to_Z Hmd. unfold ymd2ord, days_before_month, days_in_month.
      rewrite Hleap, Hdby. lia.
Qed.
(** A broken-down time [datetime] accepts. *)
Definition well_formed (t : struct_time) : Prop :=
  1 <= tm_year t <= 9999 /\ 1 <= tm_mon t <= 12
  /\ 1 <= tm_mday t <= days_in_month (tm_year t) (tm_mon t)
  /\ 0 <= tm_hour t <= 23 /\ 0 <= tm_min t <= 59 /\ 0 <= tm_sec t <= 59.

(** The first second of the year 10000. *)
Definition Y10K : Z := 253402300800.

Lemma datetime_well_formed t :
  well_formed t ->
  datetime (tm_year t) (tm_mon t) (tm_mday t) (tm_hour t) (tm_min t) (tm_sec t) = Ok t.
Proof.
  intros (Hy & Hm & Hd & Hh & Hmi & Hs). unfold datetime.
  repeat match goal with
         | |- context [?a <=? ?b] =>
             replace (a <=? b) with true by (symmetry; apply Z.leb_le; lia)
         end.
  destruct t; reflexivity.
Qed.

Lemma gmtime_spec s :
  0 <= s < Y10K ->
  timestamp (gmtime s) = s /\ well_formed (gmtime s) /\ 1970 <= tm_year (gmtime s).
Proof.
  intros Hs. unfold Y10K in Hs. unfold gmtime, timestamp, well_formed.
  assert (Hday : 719163 <= s / 86400 + EPOCH_ORDINAL < 3652060)
    by (unfold EPOCH_ORDINAL; Z.div_mod_to_equations; lia).
  pose proof (ord2ymd_spec (s / 86400 + EPOCH_ORDINAL) ltac:(lia)) as H.
  destruct (ord2ymd (s / 86400 + EPOCH_ORDINAL)) as [[y m] d].
  destruct H as (Hord & Hm & Hd & Hyear). specialize (Hyear Hday). cbn.
  rewrite Hord. unfold EPOCH_ORDINAL.
  repeat split; try lia; Z.div_mod_to_equations; lia.
Qed.

End Calendar.

(** ** The text of a date: formatting and parsing *)

Section IsoText.
Import Py.

(** A year on four digits. *)
Definition pad4 (y : Z) : string :=
  String (digit_char (y / 1000))
    (String (digit_char (y / 100 mod 10))
       (String (digit_char (y / 10 mod 10))
          (String (digit_char (y mod 10)) EmptyString))).

(** The format [YYYY-MM-DDTHH:MM:SSZ] of the persisted record. *)
Definition iso8601 (t : struct_time) : string :=
  pad4 (tm_year t) +:+ "-" +:+ pad2 (tm_mon t) +:+ "-" +:+ pad2 (tm_mday t)
  +:+ "T" +:+ pad2 (tm_hour t) +:+ ":" +:+ pad2 (tm_min t) +:+ ":"
  +:+ pad2 (tm_sec t) +:+ "Z".

Lemma below_cases (P : Z -> Prop) (k : nat) :
  Forall P (map Z.of_nat (seq 0 k)) -> forall z, 0 <= z < Z.of_nat k -> P z.
Proof.
  intros H z Hz. rewrite Forall_forall in H. apply H.
  apply list_elem_of_In, in_map_iff. exists (Z.to_nat z). split; [lia|].
  apply in_seq. lia.
Qed.

Ltac by_cases k :=
  match goal with
  | |- forall z, 0 <= z < _ -> @?P z =>
      apply (below_cases P k); cbv [seq map Z.of_nat Pos.of_succ_nat Pos.succ];
      repeat apply Forall_cons_2; try apply Forall_nil_2
  end.

Ltac evaluate :=
  intros; try lia; vm_compute;
  repeat (etransitivity; [apply app_nil_r|]); reflexivity.

Lemma digit_char_is_digit a : 0 <= a < 10 -> is_digit (digit_char a) = true.
Proof. revert a. by_cases 10%nat; reflexivity. Qed.

Lemma digit_char_not_space a : 0 <= a < 10 -> is_space (digit_char a) = false.
Proof. revert a. by_cases 10%nat; reflexivity. Qed.

Lemma digit_val_char a : 0 <= a < 10 -> digit_val (digit_char a) = a.
Proof. revert a. by_cases 10%nat; reflexivity. Qed.

Section Groups.
Context {A : Type}.
Implicit Types (k : string -> matcher A) (rest : string).

Lemma m_bind_single {B} (m : matcher B) (k : B -> matcher A) s x r :
  m s = [(x, r)] -> m_bind m k s = k x r.
Proof. intros H. unfold m_bind. rewrite H. cbn. apply app_nil_r. Qed.

Lemma m_char_digit a rest :
  0 <= a < 10 ->
  m_char is_digit (String (digit_char a) rest)
  = [(String (digit_char a) EmptyString, rest)].
Proof. intros Ha. unfold m_char. rewrite digit_char_is_digit by exact Ha. reflexivity. Qed.

Lemma group_Y_digits a b c d rest :
  0 <= a < 10 -> 0 <= b < 10 -> 0 <= c < 10 -> 0 <= d < 10 ->
  group_Y (String (digit_char a) (String (digit_char b)
            (String (digit_char c) (String (digit_char d) rest))))
  = [(String (digit_char a) (String (digit_char b)
        (String (digit_char c) (String (digit_char d) EmptyString))), rest)].
Proof.
  intros Ha Hb Hc Hd. unfold group_Y, m_seq, m_bind, m_ret.
  rewrite (m_char_digit a) by exact Ha. cbn [flat_map fst snd].
  rewrite (m_char_digit b) by exact Hb. cbn [flat_map fst snd].
  rewrite (m_char_digit c) by exact Hc. cbn [flat_map fst snd].
  rewrite (m_char_digit d) by exact Hd. reflexivity.
Qed.

Lemma group_m_then n :
  0 <= n < 13 -> 1 <= n -> forall rest k,
  m_bind group_m (fun g => m_bind (m_char (literal "-")) (fun _ => k g))
    (String (digit_char (n / 10)) (String (digit_char (n mod 10)) (String "-" rest)))
  = k (pad2 n) rest.
Proof. revert n. by_cases 13%nat; evaluate. Qed.

Lemma group_d_then n :
  0 <= n < 32 -> 1 <= n -> forall rest k,
  m_bind group_d (fun g => m_bind (m_char (literal "T")) (fun _ => k g))
    (String (digit_char (n / 10)) (String (digit_char (n mod 10)) (String "T" rest)))
  = k (pad2 n) rest.
Proof. revert n. by_cases 32%nat; evaluate. Qed.

Lemma group_H_then n :
  0 <= n < 24 -> 0 <= n -> forall rest k,
  m_bind group_H (fun g => m_bind (m_char (literal ":")) (fun _ => k g))
    (String (digit_char (n / 10)) (String (digit_char (n mod 10)) (String ":" rest)))
  = k (pad2 n) rest.
Proof. revert n. by_cases 24%nat; evaluate. Qed.

Lemma group_M_then n :
  0 <= n < 60 -> 0 <= n -> forall rest k,
  m_bind group_M (fun g => m_bind (m_char (literal ":")) (fun _ => k g))
    (String (digit_char (n / 10)) (String (digit_char (n mod 10)) (String ":" rest)))
  = k (pad2 n) rest.
Proof. revert n. by_cases 60%nat; evaluate. Qed.

Lemma group_S_then n :
  0 <= n < 60 -> 0 <= n -> forall rest k,
  m_bind group_S (fun g => m_bind (m_char (literal "Z")) (fun _ => k g))
    (String (digit_char (n / 10)) (String (digit_char (n mod 10)) (String "Z" rest)))
  = k (pad2 n) rest.
Proof. revert n. by_cases 60%nat; evaluate. Qed.

End Groups.

(** Rewrites with one of the lemmas above, reading the continuation off
    the goal. *)
Ltac then_group lem :=
  match goal with
  | |- context [m_bind _ (fun g => m_bind (m_char (literal _)) (fun _ => @?k g))
                  (String _ (String _ (String _ ?r)))] =>
      rewrite (fun n H1 H2 => lem _ n H1 H2 r k) by lia
  end.

Lemma py_int_pad2 n : 0 <= n < 100 -> py_int (pad2 n) = n.
Proof.
  intros Hn. unfold py_int, pad2. cbn [lstrip].
  assert (Ha : 0 <= n / 10 < 10) by (Z.div_mod_to_equations; lia).
  assert (Hb : 0 <= n mod 10 < 10) by (Z.div_mod_to_equations; lia).
  rewrite digit_char_not_space by exact Ha. cbn [int_digits].
  rewrite !digit_val_char by assumption. Z.div_mod_to_equations. lia.
Qed.

Lemma py_int_pad4 y : 0 <= y <= 9999 -> py_int (pad4 y) = y.
Proof.
  intros Hy. unfold py_int, pad4. cbn [lstrip].
  assert (Ha : 0 <= y / 1000 < 10) by (Z.div_mod_to_equations; lia).
  assert (Hb : 0 <= y / 100 mod 10 < 10) by (Z.div_mod_to_equations; lia).
  assert (Hc : 0 <= y / 10 mod 10 < 10) by (Z.div_mod_to_equations; lia).
  assert (Hd : 0 <= y mod 10 < 10) by (Z.div_mod_to_equations; lia).
  rewrite digit_char_not_space by exact Ha. cbn [int_digits].
  rewrite !digit_val_char by assumption. Z.div_mod_to_equations. lia.
Qed.

(** Parsing the text of a date gives the date back. *)
Lemma strptime_iso8601 t : well_formed t -> strptime_iso (iso8601 t) = Ok t.
Proof.
  intros Hwf. pose proof Hwf as (Hy & Hm & Hd & Hh & Hmi & Hs).
  assert (Hdim : days_in_month (tm_year t) (tm_mon t) <= 31).
  { unfold days_in_month.
    assert (Hc : tm_mon t = 1 \/ tm_mon t = 2 \/ tm_mon t = 3 \/ tm_mon t = 4
                 \/ tm_mon t = 5 \/ tm_mon t = 6 \/ tm_mon t = 7 \/ tm_mon t = 8
                 \/ tm_mon t = 9 \/ tm_mon t = 10 \/ tm_mon t = 11
                 \/ tm_mon t = 12) by lia.
    repeat (destruct Hc as [->|Hc]); try rewrite Hc;
      destruct (is_leap (tm_year t)); vm_compute; congruence. }
  unfold strptime_iso, iso8601, format_regex, pad4.
  cbv [append].
  erewrite m_bind_single; cycle 1.
  { apply group_Y_digits; Z.div_mod_to_equations; lia. }
  erewrite m_bind_single by reflexivity.
  unfold pad2 at 1 2 3 4 5; cbv [append].
  then_group @group_m_then. then_group @group_d_then.
  then_group @group_H_then. then_group @group_M_then.
  then_group @group_S_then.
  unfold m_ret. fold (pad4 (tm_year t)).
  rewrite py_int_pad4 by lia. rewrite !py_int_pad2 by lia.
  apply datetime_well_formed. exact Hwf.
Qed.

(** [%Y] of a year on four digits. *)
Lemma decimal_pad4 y : 1000 <= y <= 9999 -> decimal y = pad4 y.
Proof.
  intros Hy. unfold decimal.
  replace (y <? 0) with false by (symmetry; apply Z.ltb_ge; lia).
  assert (Hlog : 9 <= Z.log2 y) by (apply (Z.log2_le_mono 1000 y); lia).
  remember (Z.to_nat (Z.log2 y)) as fuel eqn:Hfuel.
  assert (Hf : (9 <= fuel)%nat) by lia.
  do 4 (destruct fuel as [|fuel]; [lia|]).
  cbn [decimal_aux].
  replace (y / 10 =? 0) with false
    by (symmetry; apply Z.eqb_neq; Z.div_mod_to_equations; lia).
  replace (y / 10 / 10 =? 0) with false
    by (symmetry; apply Z.eqb_neq; Z.div_mod_to_equations; lia).
  replace (y / 10 / 10 / 10 =? 0) with false
    by (symmetry; apply Z.eqb_neq; Z.div_mod_to_equations; lia).
  replace (y / 10 / 10 / 10 / 10 =? 0) with true
    by (symmetry; apply Z.eqb_eq; Z.div_mod_to_equations; lia).
  unfold pad4.
  replace (y / 10 / 10 / 10 mod 10) with (y / 1000) by (Z.div_mod_to_equations; lia).
  replace (y / 10 / 10) with (y / 100) by (Z.div_mod_to_equations; lia).
  reflexivity.
Qed.

Lemma strftime_iso8601 t :
  1000 <= tm_year t <= 9999 -> strftime_iso t = iso8601 t.
Proof. intros Hy. unfold strftime_iso, iso8601. rewrite decimal_pad4 by exact Hy. reflexivity. Qed.

(** Formatting a moment and parsing the text gives the moment back. *)
Lemma strptime_strftime_gmtime s :
  0 <= s < Y10K ->
  exists t, strptime_iso (strftime_iso (gmtime s)) = Ok t /\ timestamp t = s.
Proof.
  intros Hs. destruct (gmtime_spec s Hs) as (Hts & Hwf & Hy).
  exists (gmtime s). split; [|exact Hts].
  rewrite strftime_iso8601 by (destruct Hwf as (? & _); lia).
  apply strptime_iso8601. exact Hwf.
Qed.

End IsoText.

(** ** Properties of the import adapter *)

Section ImportAdapter.
Import Py inject_cookies.

(** The persisted entry of the scenario: a name, a value and [SameSite = 2]. *)
Definition scenario_entry : gmap string pyval :=
  <["Name" := PyStr "ct0"]> (<["Value" := PyStr "abc"]> (<["SameSite" := PyInt 2]> ∅)).

Definition scenario_cookie : gmap string pyval :=
  <["name" := PyStr "ct0"]>
  (<["value" := PyStr "abc"]>
  (<["domain" := PyStr ".x.com"]>
  (<["path" := PyStr "/"]>
  (<["secure" := PyBool true]>
  (<["httpOnly" := PyBool false]>
  (<["sameSite" := PyStr "None"]> ∅)))))).

(** An entry whose [Expires] is not there, is a string, or is a value
    that counts as false: the only entries [iso_to_epoch] accepts. *)
Definition expires_is_text (cookie : gmap string pyval) : Prop :=
  match cookie !! "Expires" with
  | None => True
  | Some (PyStr _) => True
  | Some v => truthy v = false
  end.

(** An entry whose [SameSite] can be looked up in a set. *)
Definition same_site_hashable (cookie : gmap string pyval) : Prop :=
  hashable (dict_get cookie "SameSite") = true.

Lemma strptime_iso_raises s e : strptime_iso s = Raise e -> e = ValueError.
Proof.
  unfold strptime_iso, datetime.
  destruct (format_regex s) as [|[[[[[[gY gm] gd] gH] gM] gS] rest] others];
    [congruence|].
  destruct rest; [|congruence].
  match goal with |- context [if ?c then _ else _] => destruct c end; congruence.
Qed.

Lemma iso_to_epoch_text (cookie : gmap string pyval) :
  expires_is_text cookie -> exists e, iso_to_epoch (dict_get cookie "Expires") = Ok e.
Proof.
  unfold expires_is_text, dict_get, iso_to_epoch.
  destruct (cookie !! "Expires") as [v|] eqn:Hv; simpl.
  - destruct v; simpl; intros Hf;
      try (rewrite Hf; simpl; eexists; reflexivity);
      try (eexists; reflexivity).
    destruct (negb (bool_decide (s = EmptyString))); simpl; [|eexists; reflexivity].
    destruct (strptime_iso s) as [t|e] eqn:Hp; [eexists; reflexivity|].
    apply strptime_iso_raises in Hp. subst e. eexists; reflexivity.
  - intros _. eexists; reflexivity.
Qed.

(** The dictionary [adapt_cookie] holds once [sameSite] is settled. *)
Definition settled (cookie : gmap string pyval) (same_site : option string)
  : gmap string pyval :=
  let base : gmap string pyval :=
    <["name" := dict_get_default cookie "Name" (PyStr EmptyString)]>
    (<["value" := dict_get_default cookie "Value" (PyStr EmptyString)]>
    (<["domain" := py_or (dict_get cookie "Domain") (PyStr ".x.com")]>
    (<["path" := py_or (dict_get cookie "Path") (PyStr "/")]>
    (<["secure" :=
         PyBool (truthy (dict_get_default cookie "Secure" (PyBool true)))]>
    (<["httpOnly" :=
         PyBool (truthy (dict_get_default cookie "HttpOnly" (PyBool false)))]> ∅))))) in
  match same_site with
  | Some label => <["sameSite" := PyStr label]> base
  | None => base
  end.

(** The label [adapt_cookie] keeps for a [SameSite] value, if any. *)
Definition same_site_label (v : pyval) : option string :=
  match v with
  | PyInt z => Some (default "Lax" (same_site_map !! z))
  | PyBool b => Some (if b then "Strict" else "Lax")
  | PyStr s => if bool_decide (s ∈ ["Lax"; "Strict"; "None"]) then Some s else None
  | _ => None
  end.

Definition with_expires (e : Z) (adapted : gmap string pyval) : gmap string pyval :=
  if 0 <? e then <["expires" := PyInt e]> adapted else adapted.

Lemma same_site_map_label z :
  let label := default "Lax" (same_site_map !! z) in
  label = "Lax" \/ label = "Strict" \/ label = "None".
Proof.
  unfold same_site_map. cbv zeta.
  destruct (decide (z = 0)) as [->|H0]; [left; reflexivity|].
  rewrite lookup_insert_ne by congruence.
  destruct (decide (z = 1)) as [->|H1]; [right; left; reflexivity|].
  rewrite lookup_insert_ne by congruence.
  destruct (decide (z = 2)) as [->|H2]; [right; right; reflexivity|].
  rewrite lookup_insert_ne by congruence. left. reflexivity.
Qed.

(** [adapt_cookie] in one equation: the label is settled, then the
    expiry is added when it is positive. *)
Lemma adapt_cookie_unfold (cookie : gmap string pyval) :
  adapt_cookie (PyDict cookie)
  = if hashable (dict_get cookie "SameSite") then
      rbind (iso_to_epoch (dict_get cookie "Expires")) (fun e =>
        Ok (with_expires e
              (settled cookie (same_site_label (dict_get cookie "SameSite")))))
    else Raise TypeError.
Proof.
  unfold adapt_cookie, settled, with_expires.
  generalize (dict_get_default cookie "Name" (PyStr EmptyString)).
  generalize (dict_get_default cookie "Value" (PyStr EmptyString)).
  generalize (py_or (dict_get cookie "Domain") (PyStr ".x.com")).
  generalize (py_or (dict_get cookie "Path") (PyStr "/")).
  generalize (PyBool (truthy (dict_get_default cookie "Secure" (PyBool true)))).
  generalize (PyBool (truthy (dict_get_default cookie "HttpOnly" (PyBool false)))).
  generalize (iso_to_epoch (dict_get cookie "Expires")).
  generalize (dict_get cookie "SameSite").
  intros ss r v6 v5 v4 v3 v2 v1.
  cbv zeta.
  set (base := <["name" := v1]> (<["value" := v2]> (<["domain" := v3]>
                 (<["path" := v4]> (<["secure" := v5]> (<["httpOnly" := v6]>
                    (<["sameSite" := ss]> (∅ : gmap string pyval)))))))).
  assert (Hss : dict_get base "sameSite" = ss) by (reflexivity).
  rewrite Hss.
  destruct ss as [|b|z|q|s|l|m]; cbn [isinstance_int hashable same_site_label].
  - destruct r as [e|x]; [|reflexivity]. cbn [rbind].
    destruct (0 <? e); reflexivity.
  - destruct b, r as [e|x]; try reflexivity; cbn [rbind];
      destruct (0 <? e); reflexivity.
  - destruct (same_site_map_label z) as [Hl|[Hl|Hl]]; cbv zeta in Hl; rewrite Hl;
      (destruct r as [e|x]; [|reflexivity]); cbn [rbind];
      destruct (0 <? e); reflexivity.
  - destruct r as [e|x]; [|reflexivity]. cbn [rbind].
    destruct (0 <? e); reflexivity.
  - rewrite Hss. cbn [in_str_set rbind].
    destruct (bool_decide (s ∈ ["Lax"; "Strict"; "None"]));
      destruct r as [e|x]; try reflexivity; cbn [rbind negb];
      destruct (0 <? e); reflexivity.
  - rewrite Hss. reflexivity.
  - rewrite Hss. reflexivity.
Qed.

Lemma settled_expires cookie label : settled cookie label !! "expires" = None.
Proof. destruct label; reflexivity. Qed.

Lemma settled_same_site cookie label :
  settled cookie label !! "sameSite" = PyStr <$> label.
Proof. destruct label; reflexivity. Qed.

Lemma with_expires_lookup e (adapted : gmap string pyval) :
  adapted !! "expires" = None ->
  with_expires e adapted !! "expires" = if 0 <? e then Some (PyInt e) else None.
Proof.
  intros H. unfold with_expires. destruct (0 <? e); [|exact H].
  apply lookup_insert_eq.
Qed.

Lemma with_expires_same_site e (adapted : gmap string pyval) :
  with_expires e adapted !! "sameSite" = adapted !! "sameSite".
Proof.
  unfold with_expires. destruct (0 <? e); [|reflexivity].
  apply lookup_insert_ne. discriminate.
Qed.

(** What [adapt_cookie] returns for an entry it accepts. *)
Lemma adapt_cookie_returns (cookie : gmap string pyval) e :
  same_site_hashable cookie ->
  iso_to_epoch (dict_get cookie "Expires") = Ok e ->
  exists adapted,
    adapt_cookie (PyDict cookie) = Ok adapted
    /\ adapted !! "expires" = (if 0 <? e then Some (PyInt e) else None)
    /\ adapted !! "sameSite" = PyStr <$> same_site_label (dict_get cookie "SameSite").
Proof.
  intros Hh He. rewrite adapt_cookie_unfold. unfold same_site_hashable in Hh.
  rewrite Hh, He. cbn [rbind]. eexists. split; [reflexivity|]. split.
  - apply with_expires_lookup, settled_expires.
  - rewrite with_expires_same_site. apply settled_same_site.
Qed.

(** The entry of the scenario with [SameSite = 5]. *)
Definition unmapped_entry : gmap string pyval :=
  <["Name" := PyStr "ct0"]> (<["Value" := PyStr "abc"]> (<["SameSite" := PyInt 5]> ∅)).

(** C1, as the code has it: for an import entry whose [SameSite] is the
    integer 5, which [same_site_map] does not list, [adapt_cookie] returns a
    cookie whose [sameSite] is the default label [Lax]; the key is present. *)
Theorem unmapped_same_site_is_lax (cookie : gmap string pyval) :
  cookie !! "SameSite" = Some (PyInt 5) ->
  expires_is_text cookie ->
  exists adapted,
    adapt_cookie (PyDict cookie) = Ok adapted
    /\ adapted !! "sameSite" = Some (PyStr "Lax").
Proof.
  intros Hss Hexp.
  destruct (iso_to_epoch_text cookie Hexp) as [e He].
  assert (Hget : dict_get cookie "SameSite" = PyInt 5)
    by (unfold dict_get; rewrite Hss; reflexivity).
  destruct (adapt_cookie_returns cookie e) as (adapted & Hret & _ & Hlabel).
  - unfold same_site_hashable. rewrite Hget. reflexivity.
  - exact He.
  - exists adapted. split; [exact Hret|]. rewrite Hlabel, Hget. reflexivity.
Qed.

Lemma unmapped_same_site_is_lax_witness :
  unmapped_entry !! "SameSite" = Some (PyInt 5)
  /\ expires_is_text unmapped_entry
  /\ exists adapted,
       adapt_cookie (PyDict unmapped_entry) = Ok adapted
       /\ adapted !! "sameSite" = Some (PyStr "Lax").
Proof.
  split; [reflexivity|]. split; [exact I|].
  apply (unmapped_same_site_is_lax unmapped_entry); [reflexivity | exact I].
Defined.

(** C1, as the specification words it, fails: the cookie adapted from the
    entry with [SameSite = 5] does have a [sameSite] key. *)
Lemma unmapped_same_site_not_omitted :
  ~ (exists adapted,
       adapt_cookie (PyDict unmapped_entry) = Ok adapted
       /\ adapted !! "sameSite" = None).
Proof.
  intros (adapted & Hret & Hnone).
  destruct (adapt_cookie_returns unmapped_entry 0)
    as (adapted' & Hret' & _ & Hlabel); [reflexivity | reflexivity |].
  rewrite Hret in Hret'. injection Hret' as <-.
  rewrite Hlabel in Hnone. discriminate.
Qed.

(** C4: the scenario.  The entry with a name, a value and [SameSite = 2]
    is adapted to exactly the seven keys listed, and [expires] is not one
    of them. *)
Theorem adapt_cookie_scenario :
  adapt_cookie (PyDict scenario_entry) = Ok scenario_cookie
  /\ scenario_cookie !! "expires" = None
  /\ dom scenario_cookie
     = list_to_set ["name"; "value"; "domain"; "path"; "secure"; "httpOnly"; "sameSite"].
Proof.
  split; [reflexivity|]. split; [reflexivity|].
  unfold scenario_cookie. rewrite !dom_insert_L, dom_empty_L. cbn [list_to_set].
  set_solver.
Qed.

Lemma iso_to_epoch_parsed s t :
  strptime_iso s = Ok t -> iso_to_epoch (PyStr s) = Ok (timestamp t).
Proof.
  intros Hp. unfold iso_to_epoch. cbn [truthy].
  destruct (bool_decide (s = EmptyString)) eqn:Hs; cbn [negb].
  - apply bool_decide_eq_true in Hs. subst s. discriminate Hp.
  - rewrite Hp. reflexivity.
Qed.


(** The entry of the scenario with an expiry text. *)
Definition dated_entry (expires : string) : gmap string pyval :=
  <["Expires" := PyStr expires]> scenario_entry.



(** C9: [adapt_cookie] leaves [expires] out exactly when the parsed epoch
    is not strictly positive, and keeps the epoch otherwise; the text
    [1970-01-01T00:00:00Z] parses, to the epoch 0, and the cookie adapted
    from an entry that carries it has no [expires] key. *)
Theorem expires_omitted_iff_not_positive (cookie : gmap string pyval) (e : Z) :
  same_site_hashable cookie ->
  iso_to_epoch (dict_get cookie "Expires") = Ok e ->
  (exists adapted,
     adapt_cookie (PyDict cookie) = Ok adapted
     /\ (adapted !! "expires" = None <-> e <= 0)
     /\ (0 < e -> adapted !! "expires" = Some (PyInt e)))
  /\ strptime_iso "1970-01-01T00:00:00Z" = Ok (mk_time 1970 1 1 0 0 0)
  /\ iso_to_epoch (PyStr "1970-01-01T00:00:00Z") = Ok 0
  /\ (exists adapted,
        adapt_cookie (PyDict (dated_entry "1970-01-01T00:00:00Z")) = Ok adapted
        /\ adapted !! "expires" = None).
Proof.
  intros Hh He. split; [|split; [|split]].
  - destruct (adapt_cookie_returns cookie e Hh He) as (adapted & Hret & Hexp & _).
    exists adapted. split; [exact Hret|]. rewrite Hexp.
    destruct (0 <? e) eqn:Hpos.
    + apply Z.ltb_lt in Hpos. split; [|reflexivity]. split; [discriminate|lia].
    + apply Z.ltb_ge in Hpos. split; [|lia]. split; [lia|reflexivity].
  - vm_compute. reflexivity.
  - vm_compute. reflexivity.
  - destruct (adapt_cookie_returns (dated_entry "1970-01-01T00:00:00Z") 0)
      as (adapted & Hret & Hexp & _); [reflexivity | vm_compute; reflexivity |].
    exists adapted. split; [exact Hret | exact Hexp].
Qed.

Lemma expires_omitted_iff_not_positive_witness :
  same_site_hashable (dated_entry "1969-12-31T23:59:59Z")
  /\ iso_to_epoch (dict_get (dated_entry "1969-12-31T23:59:59Z") "Expires") = Ok (-1)
  /\ exists adapted,
       adapt_cookie (PyDict (dated_entry "1969-12-31T23:59:59Z")) = Ok adapted
       /\ adapted !! "expires" = None.
Proof.
  split; [reflexivity|]. split; [vm_compute; reflexivity|].
  destruct (expires_omitted_iff_not_positive (dated_entry "1969-12-31T23:59:59Z") (-1))
    as ((adapted & Hret & Hiff & _) & _); [reflexivity | vm_compute; reflexivity |].
  exists adapted. split; [exact Hret|]. apply Hiff. lia.
Defined.

End ImportAdapter.

(** ** Properties of the export adapter *)

Section ExportAdapter.
Import Py main.

(** The fields of an entry that are the same for every cookie. *)
Definition constant_metadata : gmap string pyval :=
  <["Path" := PyStr EmptyString]>
  (<["Domain" := PyStr "twitter.com"]>
  (<["RawExpires" := PyStr EmptyString]>
  (<["MaxAge" := PyInt 0]>
  (<["Secure" := PyBool false]>
  (<["HttpOnly" := PyBool false]>
  (<["SameSite" := PyInt 0]>
  (<["Raw" := PyStr EmptyString]>
  (<["Unparsed" := PyNone]> ∅)))))))).

(** The moment [get_future_date] formats. *)
Definition stamp (days : Z) (now jitter : Q) : Z :=
  Qfloor (now + inject_Z (days * 24 * 3600) + jitter).

Definition week_stamp (d : draws) : Z := stamp 7 (week_clock d) (week_jitter d).

Definition month_stamp (d : draws) : Z := stamp 30 (month_clock d) (month_jitter d).

(** The moment whose text the entry of a name carries. *)
Definition stamp_of (d : draws) (n : string) : Z :=
  if bool_decide (n ∈ ["personalization_id"; "kdt"]) then month_stamp d
  else week_stamp d.

(** A moment after the epoch whose year has four digits. *)
Definition in_era (s : Z) : Prop := 0 < s < Y10K.

Lemma str_replace_strips c s : str_contains c (str_replace c EmptyString s) = false.
Proof.
  induction s as [|a s IH]; [reflexivity|].
  cbn [str_replace]. destruct (Ascii.eqb a c) eqn:Hac.
  - exact IH.
  - cbn [str_contains]. rewrite Hac. exact IH.
Qed.

Lemma payload_entries cookie_values d e :
  e ∈ build_cookie_payload cookie_values d ->
  exists n,
    n ∈ COOKIE_NAMES
    /\ e = create_cookie_template n (default EmptyString (cookie_values !! n))
             (strftime_iso (gmtime (stamp_of d n))).
Proof.
  unfold build_cookie_payload. intros He.
  apply list_elem_of_In, in_map_iff in He. destruct He as (n & <- & Hn).
  exists n. split; [apply list_elem_of_In; exact Hn|].
  unfold stamp_of, month_stamp, week_stamp, stamp, get_future_date.
  destruct (bool_decide (n ∈ ["personalization_id"; "kdt"])); reflexivity.
Qed.

Lemma template_constant n v x :
  create_cookie_template n v x
  = <["Name" := PyStr n]>
      (<["Value" := PyStr (str_replace dquote EmptyString v)]>
         (<["Expires" := PyStr x]> constant_metadata)).
Proof. reflexivity. Qed.


(** C8: every entry the export adapter produces carries the same constant
    metadata, [Domain] the text [twitter.com], [Path] empty, [Secure] and
    [HttpOnly] false, [SameSite] and [MaxAge] 0, [RawExpires] and [Raw]
    empty and [Unparsed] null; an entry is these fields with a [Name], a
    [Value] and an [Expires] put in, the only fields that vary. *)
Theorem payload_constant_metadata (cookie_values : gmap string string) (d : draws)
    (e : gmap string pyval) :
  e ∈ build_cookie_payload cookie_values d ->
  (exists n v x,
     e = <["Name" := PyStr n]>
           (<["Value" := PyStr v]> (<["Expires" := PyStr x]> constant_metadata)))
  /\ e !! "Domain" = Some (PyStr "twitter.com")
  /\ e !! "Path" = Some (PyStr EmptyString)
  /\ e !! "Secure" = Some (PyBool false)
  /\ e !! "HttpOnly" = Some (PyBool false)
  /\ e !! "SameSite" = Some (PyInt 0)
  /\ e !! "MaxAge" = Some (PyInt 0)
  /\ e !! "RawExpires" = Some (PyStr EmptyString)
  /\ e !! "Raw" = Some (PyStr EmptyString)
  /\ e !! "Unparsed" = Some PyNone.
Proof.
  intros He. destruct (payload_entries _ _ _ He) as (n & _ & ->).
  split; [do 3 eexists; apply template_constant|].
  repeat split; reflexivity.
Qed.

(** The values and the draws of an example export. *)
Definition example_values : gmap string string :=
  <["personalization_id" := "p1"]> (<["kdt" := "k1"]> (<["twid" := "u=1"]>
  (<["ct0" := "c1"]> (<["auth_token" := "a1"]> (<["att" := "t1"]> ∅))))).

Definition example_draws : draws :=
  mk_draws (inject_Z 1730000000) (inject_Z 1800) (inject_Z 1730000001) (inject_Z 12).

Lemma payload_constant_metadata_witness :
  create_cookie_template "ct0" "c1" (get_future_date 7 (inject_Z 1730000000) (inject_Z 1800))
    ∈ build_cookie_payload example_values example_draws
  /\ create_cookie_template "ct0" "c1"
       (get_future_date 7 (inject_Z 1730000000) (inject_Z 1800))
     !! "Domain" = Some (PyStr "twitter.com").
Proof.
  assert (Hin : create_cookie_template "ct0" "c1"
                  (get_future_date 7 (inject_Z 1730000000) (inject_Z 1800))
                ∈ build_cookie_payload example_values example_draws).
  { apply list_elem_of_In. do 3 right. left. reflexivity. }
  split; [exact Hin|].
  exact (proj1 (proj2 (payload_constant_metadata example_values example_draws _ Hin))).
Defined.

(** C3: the round trip.  When the two moments an export synthesizes lie
    after the epoch and before the year 10000, adapting any entry of the
    payload gives back the label of the exported [SameSite] integer, [Lax]
    for 0, and an [expires] that is the very second the [Expires] text was
    formatted from, hence a moment of the same day. *)
Theorem export_import_round_trip (cookie_values : gmap string string) (d : draws)
    (e : gmap string pyval) :
  in_era (week_stamp d) -> in_era (month_stamp d) ->
  e ∈ build_cookie_payload cookie_values d ->
  exists n adapted x,
    n ∈ COOKIE_NAMES
    /\ e !! "Name" = Some (PyStr n)
    /\ e !! "Expires" = Some (PyStr (strftime_iso (gmtime (stamp_of d n))))
    /\ e !! "SameSite" = Some (PyInt 0)
    /\ inject_cookies.same_site_map !! 0 = Some "Lax"
    /\ inject_cookies.adapt_cookie (PyDict e) = Ok adapted
    /\ adapted !! "sameSite" = Some (PyStr "Lax")
    /\ adapted !! "expires" = Some (PyInt x)
    /\ x = stamp_of d n
    /\ x / 86400 = stamp_of d n / 86400.
Proof.
  intros Hweek Hmonth He.
  destruct (payload_entries _ _ _ He) as (n & Hn & ->).
  assert (Hera : in_era (stamp_of d n))
    by (unfold stamp_of; destruct (bool_decide _); assumption).
  set (s := stamp_of d n) in *.
  set (v := default EmptyString (cookie_values !! n)).
  destruct (strptime_strftime_gmtime s) as (t & Hparse & Hts);
    [unfold in_era in Hera; lia|].
  destruct (adapt_cookie_returns
              (create_cookie_template n v (strftime_iso (gmtime s))) s)
    as (adapted & Hret & Hexp & Hlabel).
  - reflexivity.
  - change (dict_get (create_cookie_template n v (strftime_iso (gmtime s))) "Expires")
      with (PyStr (strftime_iso (gmtime s))).
    rewrite (iso_to_epoch_parsed _ t Hparse), Hts. reflexivity.
  - exists n, adapted, s. repeat split; try reflexivity; try assumption.
    rewrite Hexp. replace (0 <? s) with true; [reflexivity|].
    symmetry. apply Z.ltb_lt. unfold in_era in Hera. lia.
Qed.

Lemma export_import_round_trip_witness :
  in_era (week_stamp example_draws)
  /\ in_era (month_stamp example_draws)
  /\ create_cookie_template "ct0" "c1"
       (get_future_date 7 (inject_Z 1730000000) (inject_Z 1800))
     ∈ build_cookie_payload example_values example_draws
  /\ exists adapted,
       inject_cookies.adapt_cookie
         (PyDict (create_cookie_template "ct0" "c1"
                    (get_future_date 7 (inject_Z 1730000000) (inject_Z 1800))))
       = Ok adapted
       /\ adapted !! "sameSite" = Some (PyStr "Lax").
Proof.
  assert (Hweek : in_era (week_stamp example_draws))
    by (vm_compute; split; reflexivity).
  assert (Hmonth : in_era (month_stamp example_draws))
    by (vm_compute; split; reflexivity).
  assert (Hin : create_cookie_template "ct0" "c1"
                  (get_future_date 7 (inject_Z 1730000000) (inject_Z 1800))
                ∈ build_cookie_payload example_values example_draws).
  { apply list_elem_of_In. do 3 right. left. reflexivity. }
  split; [exact Hweek|]. split; [exact Hmonth|]. split; [exact Hin|].
  destruct (export_import_round_trip example_values example_draws _ Hweek Hmonth Hin)
    as (n & adapted & x & _ & _ & _ & _ & _ & Hret & Hlabel & _).
  exists adapted. split; [exact Hret | exact Hlabel].
Defined.

End ExportAdapter.

(** ** Runs and their traces *)

Section Runs.
Import Py.

(** The events that persist a record or hand it to the validator. *)
Definition persists (ev : event) : bool :=
  match ev with
  | WriteFile _ _ | RunProcess _ => true
  | _ => false
  end.


(** [spec m Q R]: from any state, [m] persists nothing, a value it
    returns satisfies [Q] and an exception it raises satisfies [R]. *)
Definition spec {A} (m : M A) (Q : A -> Prop) (R : exn -> Prop) : Prop :=
  forall st,
    Forall (fun ev => persists ev = false) (trace (m st))
    /\ match outcome (m st) with
       | Ok a => Q a
       | Raise e => R e
       end.

Lemma spec_ret {A} (a : A) (Q : A -> Prop) R : Q a -> spec (ret a) Q R.
Proof. intros H st. split; [constructor | exact H]. Qed.

Lemma spec_raise {A} e (Q : A -> Prop) (R : exn -> Prop) : R e -> spec (raise e) Q R.
Proof. intros H st. split; [constructor | exact H]. Qed.

Lemma spec_emit ev (Q : unit -> Prop) R :
  persists ev = false -> Q tt -> spec (emit ev) Q R.
Proof. intros Hev H st. split; [repeat constructor; exact Hev | exact H]. Qed.

Lemma spec_get_state (Q : state -> Prop) R : (forall st, Q st) -> spec get_state Q R.
Proof. intros H st. split; [constructor | apply H]. Qed.

Lemma spec_put_state st' (Q : unit -> Prop) R : Q tt -> spec (put_state st') Q R.
Proof. intros H st. split; [constructor | exact H]. Qed.

Lemma spec_bind {A B} (m : M A) (k : A -> M B) (P : A -> Prop) Q R :
  spec m P R -> (forall a, P a -> spec (k a) Q R) -> spec (bind m k) Q R.
Proof.
  intros Hm Hk st. specialize (Hm st). unfold bind, trace, outcome in *.
  destruct (m st) as [[t [a|e]] st']; cbn in *; [|exact Hm].
  destruct Hm as [Ht Ha]. specialize (Hk a Ha st'). unfold trace, outcome in Hk.
  destruct (k a st') as [[t' r] st'']; cbn in *.
  destruct Hk as [Ht' Hr]. split; [apply Forall_app; split; assumption | exact Hr].
Qed.

Lemma spec_bind_any {A B} (m : M A) (k : A -> M B) Q R :
  spec m (fun _ => True) R -> (forall a, spec (k a) Q R) -> spec (bind m k) Q R.
Proof. intros Hm Hk. apply (spec_bind m k (fun _ => True)); [exact Hm | intros a _; apply Hk]. Qed.

Lemma spec_weaken {A} (m : M A) (Q Q' : A -> Prop) (R R' : exn -> Prop) :
  spec m Q R -> (forall a, Q a -> Q' a) -> (forall e, R e -> R' e) -> spec m Q' R'.
Proof.
  intros Hm HQ HR st. destruct (Hm st) as [Ht Ho]. split; [exact Ht|].
  destruct (outcome (m st)); [apply HQ | apply HR]; exact Ho.
Qed.

Lemma spec_try_except {A} (body : M A) handler Q (R1 R : exn -> Prop) :
  spec body Q R1 ->
  (forall e, R1 e -> is_Exception e = true) ->
  (forall e, spec (handler e) Q R) ->
  spec (try_except body handler) Q R.
Proof.
  intros Hb Hexc Hh st. specialize (Hb st). unfold try_except, trace, outcome in *.
  destruct (body st) as [[t [a|e]] st']; cbn in *; [exact Hb|].
  destruct Hb as [Ht He]. rewrite (Hexc e He).
  specialize (Hh e st'). unfold trace, outcome in Hh.
  destruct (handler e st') as [[t' r] st'']; cbn in *.
  destruct Hh as [Ht' Hr]. split; [apply Forall_app; split; assumption | exact Hr].
Qed.

Lemma spec_try_finally {A} (body : M A) cleanup (Q : A -> Prop) (R : exn -> Prop) :
  spec body Q R -> spec cleanup (fun _ => True) R ->
  spec (try_finally body cleanup) Q R.
Proof.
  intros Hb Hc st. specialize (Hb st). unfold try_finally, trace, outcome in *.
  destruct (body st) as [[t r] st']; cbn in *. destruct Hb as [Ht Hr].
  specialize (Hc st'). unfold trace, outcome in Hc.
  destruct (cleanup st') as [[t' [u|e]] st'']; cbn in *; destruct Hc as [Ht' Hc];
    (split; [apply Forall_app; split; assumption|]); [exact Hr | exact Hc].
Qed.

(** An exception of the class [Exception]. *)
Definition ordinary (e : exn) : Prop := is_Exception e = true.

End Runs.

(** Follows the structure of a computation that persists nothing. *)
Ltac quiet_steps :=
  repeat match goal with
    | |- spec (Py.bind _ _) _ _ => apply spec_bind_any; [|intros ?]
    | |- spec (Py.ret _) _ _ => apply spec_ret; exact I
    | |- spec (Py.emit _) _ _ => apply spec_emit; [reflexivity | exact I]
    | |- spec (Py.raise _) _ _ => apply spec_raise; reflexivity
    | |- spec Py.get_state _ _ => apply spec_get_state; intros; exact I
    | |- spec (Py.put_state _) _ _ => apply spec_put_state; exact I
    | |- spec (if ?b then _ else _) _ _ => destruct b
    | |- spec (match ?x with _ => _ end) _ _ => destruct x
    end.

(** ** The bootstrap orchestrator *)

Section Orchestrator.
Import Py main.

(** The mapping [extract_cookies] builds, as a function of the jar. *)
Fixpoint extract_values (cookies : list browser_cookie) (names : list string)
    (cookie_values : gmap string string) : gmap string string :=
  match names with
  | [] => cookie_values
  | n :: rest =>
      extract_values cookies rest (<[n := extracted_value cookies n]> cookie_values)
  end.

(** The extraction result of a jar. *)
Definition extracted (cookies : list browser_cookie) : gmap string string :=
  extract_values cookies COOKIE_NAMES ∅.

Lemma extract_loop_spec cookies names acc R :
  spec (extract_loop cookies names acc)
    (fun values => values = extract_values cookies names acc) R.
Proof.
  revert acc. induction names as [|n rest IH]; intros acc; cbn [extract_loop extract_values].
  - apply spec_ret. reflexivity.
  - apply spec_bind_any; [quiet_steps | intros _; apply IH].
Qed.

Lemma extract_cookies_spec w R :
  spec (extract_cookies w) (fun values => values = extracted (jar w)) R.
Proof.
  unfold extract_cookies. apply spec_bind_any; [quiet_steps|].
  intros _. apply extract_loop_spec.
Qed.

Lemma close_extra_quiet index count R : spec (close_extra index count) (fun _ => True) R.
Proof.
  revert index. induction count as [|count IH]; intros index; cbn [close_extra].
  - quiet_steps.
  - apply spec_bind_any; [quiet_steps | intros _; apply IH].
Qed.

Lemma get_primary_page_quiet R : spec get_primary_page (fun _ => True) R.
Proof.
  unfold get_primary_page. apply spec_bind_any; [quiet_steps|]. intros st.
  apply spec_bind_any; [apply close_extra_quiet|]. intros _. quiet_steps.
Qed.

Lemma is_logged_in_quiet w timeout : spec (is_logged_in w timeout) (fun _ => True) ordinary.
Proof.
  unfold is_logged_in. apply spec_bind_any; [apply get_primary_page_quiet|].
  intros _. quiet_steps.
Qed.

Lemma login_with_token_quiet w token :
  spec (login_with_token w token) (fun _ => True) ordinary.
Proof.
  unfold login_with_token. apply spec_bind_any; [apply get_primary_page_quiet|].
  intros _. do 6 (apply spec_bind_any; [quiet_steps | intros ?]).
  apply spec_bind_any; [apply is_logged_in_quiet|]. intros logged. quiet_steps.
Qed.

Lemma connect_existing_browser_quiet w :
  spec (connect_existing_browser w) (fun _ => True) ordinary.
Proof. unfold connect_existing_browser. quiet_steps. Qed.

Lemma missing_names_found (cookies : gmap string string) n :
  cookies !! n = Some EmptyString -> missing_names cookies <> [].
Proof.
  intros Hn Hnil. unfold missing_names in Hnil.
  apply fmap_nil_inv in Hnil.
  assert (Hin : (n, EmptyString) ∈ filter (fun item : string * string => snd item = EmptyString)
                                     (map_to_list cookies)).
  { apply list_elem_of_filter. split; [reflexivity|].
    apply elem_of_map_to_list. exact Hn. }
  rewrite Hnil in Hin. inversion Hin.
Qed.

Lemma extract_values_keeps cookies names acc n :
  acc !! n = Some (extracted_value cookies n) ->
  extract_values cookies names acc !! n = Some (extracted_value cookies n).
Proof.
  revert acc. induction names as [|m rest IH]; intros acc Hacc; [exact Hacc|].
  cbn [extract_values]. apply IH.
  destruct (decide (m = n)) as [->|Hne];
    [apply lookup_insert_eq | rewrite lookup_insert_ne by exact Hne; exact Hacc].
Qed.

Lemma extract_values_lookup cookies names acc n :
  n ∈ names ->
  extract_values cookies names acc !! n = Some (extracted_value cookies n).
Proof.
  revert acc. induction names as [|m rest IH]; intros acc Hn; [inversion Hn|].
  cbn [extract_values]. apply elem_of_cons in Hn as [->|Hn].
  - apply extract_values_keeps, lookup_insert_eq.
  - apply IH. exact Hn.
Qed.

(** A name with no cookie in the jar is extracted as the empty string. *)
Lemma extracted_absent cookies n :
  n ∈ COOKIE_NAMES -> first_match cookies n = None ->
  extracted cookies !! n = Some EmptyString.
Proof.
  intros Hn Hnone. unfold extracted. rewrite extract_values_lookup by exact Hn.
  unfold extracted_value. rewrite Hnone. reflexivity.
Qed.

Ltac orchestrator_steps :=
  repeat first
    [ progress quiet_steps
    | apply connect_existing_browser_quiet
    | apply is_logged_in_quiet
    | apply login_with_token_quiet ].

Lemma main_spec w n :
  extracted (jar w) !! n = Some EmptyString ->
  spec (main w) (fun _ => True) (fun _ => False).
Proof.
  intros Hempty. unfold main.
  destruct (bool_decide (strip (getenv w "X_ACCOUNT" EmptyString) = EmptyString));
    [quiet_steps|].
  apply spec_bind_any; [quiet_steps|]. intros _.
  apply spec_bind_any; [quiet_steps|]. intros _.
  apply spec_bind_any; [|intros how; quiet_steps].
  apply spec_try_finally; [|quiet_steps].
  apply (spec_try_except _ _ _ ordinary); [|intros e He; exact He|intros e; quiet_steps].
  apply spec_bind_any; [orchestrator_steps|]. intros _.
  apply spec_bind_any; [orchestrator_steps|]. intros st0.
  apply spec_bind_any; [orchestrator_steps|]. intros _.
  apply spec_bind_any; [orchestrator_steps|]. intros logged.
  apply spec_bind_any; [orchestrator_steps|]. intros proceed.
  destruct proceed; [|quiet_steps].
  apply (spec_bind _ _ (fun values => values = extracted (jar w)));
    [apply extract_cookies_spec|].
  intros values ->.
  destruct (missing_names (extracted (jar w))) as [|m ms] eqn:Hmissing.
  - exfalso. exact (missing_names_found _ n Hempty Hmissing).
  - quiet_steps.
Qed.

(** C2: when the extraction result maps one of the six names to the
    empty string, the run of the orchestrator ends, without an exception, and
    its trace holds no write of a cookie file and no call of the external
    validator.  The extraction result is the value [extract_cookies]
    returns. *)
Theorem incomplete_extraction_not_persisted (w : world) (st : state) (n : string) :
  n ∈ COOKIE_NAMES ->
  extracted (jar w) !! n = Some EmptyString ->
  (forall st', outcome (extract_cookies w st') = Ok (extracted (jar w)))
  /\ outcome (main w st) = Ok tt
  /\ (forall path payload, WriteFile path payload ∉ trace (main w st))
  /\ (forall cmd, RunProcess cmd ∉ trace (main w st)).
Proof.
  intros _ Hempty. split.
  { intros st'. destruct (extract_cookies_spec w (fun _ => False) st') as [_ Ho].
    destruct (outcome (extract_cookies w st')); [rewrite Ho; reflexivity | destruct Ho]. }
  destruct (main_spec w n Hempty st) as [Htrace Hout].
  rewrite Forall_forall in Htrace.
  split; [|split].
  - destruct (outcome (main w st)) as [[]|e]; [reflexivity | destruct Hout].
  - intros path payload Hin. specialize (Htrace _ Hin). discriminate.
  - intros cmd Hin. specialize (Htrace _ Hin). discriminate.
Qed.

(** A run whose browser is logged in but holds no [twid] cookie. *)
Definition incomplete_world : world :=
  mk_world (<["X_ACCOUNT" := "alice"]> ∅) "/srv/app" "/srv" true true 1
    (fun _ => SignalFound)
    [mk_cookie "personalization_id" "p1" ".x.com"; mk_cookie "kdt" "k1" ".x.com";
     mk_cookie "ct0" "c1" ".x.com"; mk_cookie "auth_token" "a1" ".x.com";
     mk_cookie "att" "t1" ".x.com"]
    (fun _ => true) (inject_Z 1730000000) example_draws true true (Exited 0).

Lemma incomplete_extraction_not_persisted_witness :
  "twid" ∈ COOKIE_NAMES
  /\ extracted (jar incomplete_world) !! "twid" = Some EmptyString
  /\ outcome (main incomplete_world (initial 1)) = Ok tt
  /\ (forall path payload,
        WriteFile path payload ∉ trace (main incomplete_world (initial 1))).
Proof.
  assert (Hn : "twid" ∈ COOKIE_NAMES) by (apply list_elem_of_In; do 2 right; left; reflexivity).
  assert (He : extracted (jar incomplete_world) !! "twid" = Some EmptyString)
    by (apply extracted_absent; [exact Hn | reflexivity]).
  split; [exact Hn|]. split; [exact He|].
  destruct (incomplete_extraction_not_persisted incomplete_world (initial 1) "twid" Hn He)
    as (_ & Hout & Hwrite & _).
  split; [exact Hout | exact Hwrite].
Defined.

End Orchestrator.

(** ** The injection run *)

Section Injection.
Import Py inject_cookies.


(** An entry whose [Name] is missing or empty. *)
Definition nameless (item : pyval) : Prop :=
  exists d, item = PyDict d
            /\ (d !! "Name" = None \/ d !! "Name" = Some (PyStr EmptyString)).



(** A run on a file whose top-level value is an object. *)
Definition object_file_world : world :=
  mk_world "/srv/cookies" (fun _ => true)
    (fun _ => Json (PyDict (<["Name" := PyStr "ct0"]> ∅)))
    true true 1 (fun _ => true) true.



Lemma nameless_skipped item rest :
  nameless item -> adapted_named (item :: rest) = adapted_named rest.
Proof.
  intros (d & -> & Hname). cbn [adapted_named attr_get rbind].
  unfold dict_get. destruct Hname as [-> | ->]; reflexivity.
Qed.

Lemma nameless_dropped before item after :
  nameless item ->
  adapted_named (before ++ item :: after) = adapted_named (before ++ after).
Proof.
  intros Hitem. induction before as [|b before IH].
  - apply nameless_skipped. exact Hitem.
  - cbn [app adapted_named]. rewrite IH. reflexivity.
Qed.

Lemma all_nameless_empty cookies :
  Forall nameless cookies -> adapted_named cookies = Ok [].
Proof.
  induction 1 as [|item rest Hitem _ IH]; [reflexivity|].
  rewrite nameless_skipped by exact Hitem. exact IH.
Qed.

(** The run up to the check of the adapted list. *)
Lemma inject_and_open_empty w endpoint cookies st :
  adapted_named cookies = Ok [] ->
  Forall (fun ev => forall adapted, ev <> AddCookies adapted)
    (trace (inject_and_open w endpoint cookies st))
  /\ (cdp_reachable w = true -> has_context w = true ->
      outcome (inject_and_open w endpoint cookies st) = Raise SystemExit).
Proof.
  intros Hempty. unfold inject_and_open, ensure_context, bind, emit, lift, raise,
    ret, get_state, put_state, trace, outcome.
  rewrite Hempty.
  destruct (cdp_reachable w), (has_context w), st as [[|p] ? ?]; cbn;
    (split; [repeat constructor; discriminate | try reflexivity; intros; congruence]).
Qed.

(** C10: entries whose [Name] is missing or empty are dropped before
    adaptation, wherever they stand in the list; when every entry is such an
    entry the adapted list is empty, no cookie is added to the browser
    context, and the run, once connected to a browser with a context, raises
    [SystemExit]. *)
Theorem nameless_entries_abort (w : world) (endpoint : string) (cookies : list pyval)
    (st : state) :
  Forall nameless cookies ->
  (forall before item after,
     nameless item ->
     adapted_named (before ++ item :: after) = adapted_named (before ++ after))
  /\ adapted_named cookies = Ok []
  /\ Forall (fun ev => forall adapted, ev <> AddCookies adapted)
       (trace (inject_and_open w endpoint cookies st))
  /\ (cdp_reachable w = true -> has_context w = true ->
      outcome (inject_and_open w endpoint cookies st) = Raise SystemExit).
Proof.
  intros Hall. split; [exact nameless_dropped|].
  pose proof (all_nameless_empty cookies Hall) as Hempty.
  split; [exact Hempty|]. apply inject_and_open_empty. exact Hempty.
Qed.

(** A file whose two entries carry no usable name. *)
Definition nameless_cookies : list pyval :=
  [PyDict (<["Value" := PyStr "abc"]> ∅);
   PyDict (<["Name" := PyStr EmptyString]> (<["Value" := PyStr "def"]> ∅))].

Lemma nameless_entries_abort_witness :
  Forall nameless nameless_cookies
  /\ outcome (inject_and_open object_file_world "http://localhost:9222"
                nameless_cookies (initial 1))
     = Raise SystemExit.
Proof.
  assert (Hall : Forall nameless nameless_cookies).
  { repeat constructor.
    - eexists. split; [reflexivity|]. left. reflexivity.
    - eexists. split; [reflexivity|]. right. reflexivity. }
  split; [exact Hall|].
  destruct (nameless_entries_abort object_file_world "http://localhost:9222"
              nameless_cookies (initial 1) Hall) as (_ & _ & _ & Hexit).
  apply Hexit; reflexivity.
Defined.

End Injection.

(** ** Further properties of the import path *)

Section ImportPath.
Import Py inject_cookies.

Lemma days_before_year_succ y :
  days_before_year (y + 1) = days_before_year y + 365 + (if is_leap y then 1 else 0).
Proof.
  unfold days_before_year, is_leap. cbv zeta.
  replace (y + 1 - 1) with y by lia.
  destruct (y mod 4 =? 0) eqn:E4; destruct (y mod 100 =? 0) eqn:E100;
    destruct (y mod 400 =? 0) eqn:E400; cbn [andb orb negb];
    rewrite ?Z.eqb_eq, ?Z.eqb_neq in *; Z.div_mod_to_equations; lia.
Qed.

Lemma days_before_year_mono y k :
  0 <= k -> days_before_year y <= days_before_year (y + k).
Proof.
  intros Hk. revert y. pattern k. apply natlike_ind; [| |exact Hk].
  - intros y. rewrite Z.add_0_r. lia.
  - intros j Hj IH y. replace (y + Z.succ j) with ((y + j) + 1) by lia.
    rewrite days_before_year_succ. specialize (IH y).
    destruct (is_leap (y + j)); lia.
Qed.

Lemma day_of_year_le y m d :
  1 <= m <= 12 -> 1 <= d <= days_in_month y m ->
  1 <= days_before_month y m + d <= 365 + (if is_leap y then 1 else 0).
Proof.
  intros Hm. unfold days_in_month, days_before_month.
  assert (Hc : m = 1 \/ m = 2 \/ m = 3 \/ m = 4 \/ m = 5 \/ m = 6 \/ m = 7
               \/ m = 8 \/ m = 9 \/ m = 10 \/ m = 11 \/ m = 12) by lia.
  repeat (destruct Hc as [->|Hc]); try subst m; destruct (is_leap y);
    repeat match goal with
      | |- context [table ?T ?i] =>
          let v := eval vm_compute in (table T i) in change (table T i) with v
      end; cbn; lia.
Qed.

(** The seconds of a date [datetime] accepts lie between those of
    0001-01-01T00:00:00 and of 9999-12-31T23:59:59. *)
Lemma timestamp_bounds t :
  well_formed t -> -62135596800 <= timestamp t <= 253402300799.
Proof.
  intros (Hy & Hm & Hd & Hh & Hmi & Hs). unfold timestamp, ymd2ord, EPOCH_ORDINAL.
  pose proof (day_of_year_le _ _ _ Hm Hd) as Hdoy.
  pose proof (days_before_year_succ (tm_year t)) as Hsucc.
  pose proof (days_before_year_mono 1 (tm_year t - 1) ltac:(lia)) as Hlow.
  pose proof (days_before_year_mono (tm_year t + 1) (9999 - tm_year t) ltac:(lia)) as Hhigh.
  replace (1 + (tm_year t - 1)) with (tm_year t) in Hlow by lia.
  replace (tm_year t + 1 + (9999 - tm_year t)) with 10000 in Hhigh by lia.
  change (days_before_year 1) with 0 in Hlow.
  change (days_before_year 10000) with 3652059 in Hhigh.
  destruct (is_leap (tm_year t)); lia.
Qed.

Lemma datetime_ok y m d hh mm ss t :
  datetime y m d hh mm ss = Ok t -> well_formed t.
Proof.
  unfold datetime, well_formed.
  destruct (_ && _) eqn:E; [|discriminate]. intros [= <-]. cbn.
  repeat rewrite andb_true_iff in E. rewrite !Z.leb_le in E. lia.
Qed.

Lemma strptime_iso_ok s t : strptime_iso s = Ok t -> well_formed t.
Proof.
  unfold strptime_iso.
  destruct (format_regex s) as [|[[[[[[gY gm] gd] gH] gM] gS] rest] others];
    [discriminate|].
  destruct rest; [|discriminate]. apply datetime_ok.
Qed.



Lemma iso_to_epoch_not_text v :
  truthy v = true -> (forall s, v <> PyStr s) -> iso_to_epoch v = Raise TypeError.
Proof.
  intros Ht Hns. unfold iso_to_epoch. rewrite Ht. cbn [negb].
  destruct v; try reflexivity. exfalso. exact (Hns s eq_refl).
Qed.

(** X3: [iso_to_epoch] never raises on a string, whatever it holds: its
    value is 0 or the seconds of a date between the years 1 and 9999.  A
    value that counts as false gives 0, and any other value that is not a
    string raises [TypeError]. *)
Theorem iso_to_epoch_cases (v : pyval) :
  (truthy v = false -> iso_to_epoch v = Ok 0)
  /\ (forall s, v = PyStr s ->
        exists e, iso_to_epoch v = Ok e /\ -62135596800 <= e <= 253402300799)
  /\ (truthy v = true -> (forall s, v <> PyStr s) -> iso_to_epoch v = Raise TypeError).
Proof.
  split; [|split].
  - intros Hf. unfold iso_to_epoch. rewrite Hf. reflexivity.
  - intros s ->. unfold iso_to_epoch.
    destruct (negb (truthy (PyStr s))); [exists 0; split; [reflexivity|lia]|].
    destruct (strptime_iso s) as [t|x] eqn:Hp.
    + exists (timestamp t). split; [reflexivity|].
      apply timestamp_bounds, (strptime_iso_ok s), Hp.
    + rewrite (strptime_iso_raises s x Hp). exists 0. split; [reflexivity|lia].
  - apply iso_to_epoch_not_text.
Qed.

Lemma adapt_cookie_inv (cookie adapted : gmap string pyval) :
  adapt_cookie (PyDict cookie) = Ok adapted ->
  hashable (dict_get cookie "SameSite") = true
  /\ exists e,
       iso_to_epoch (dict_get cookie "Expires") = Ok e
       /\ adapted = with_expires e
                      (settled cookie (same_site_label (dict_get cookie "SameSite"))).
Proof.
  rewrite adapt_cookie_unfold.
  destruct (hashable (dict_get cookie "SameSite")); [|discriminate].
  destruct (iso_to_epoch (dict_get cookie "Expires")) as [e|x]; [|discriminate].
  cbn [rbind]. intros [= <-]. split; [reflexivity|]. exists e. split; reflexivity.
Qed.

Lemma with_expires_other e (adapted : gmap string pyval) k :
  k <> "expires" -> with_expires e adapted !! k = adapted !! k.
Proof.
  intros Hk. unfold with_expires. destruct (0 <? e); [|reflexivity].
  apply lookup_insert_ne. congruence.
Qed.

Lemma py_or_truthy v d : truthy d = true -> truthy (py_or v d) = true.
Proof. intros Hd. unfold py_or. destruct (truthy v) eqn:Hv; assumption. Qed.

Lemma same_site_map_lookup z :
  default "Lax" (same_site_map !! z)
  = if z =? 1 then "Strict" else if z =? 2 then "None" else "Lax".
Proof.
  unfold same_site_map.
  destruct (decide (z = 0)) as [->|H0]; [reflexivity|].
  rewrite lookup_insert_ne by congruence.
  destruct (decide (z = 1)) as [->|H1]; [reflexivity|].
  rewrite lookup_insert_ne by congruence.
  destruct (decide (z = 2)) as [->|H2]; [reflexivity|].
  rewrite lookup_insert_ne by congruence.
  replace (z =? 1) with false by (symmetry; apply Z.eqb_neq; exact H1).
  replace (z =? 2) with false by (symmetry; apply Z.eqb_neq; exact H2).
  reflexivity.
Qed.

(** X4: the shape of an adapted cookie.  Whatever the entry, the cookie
    [adapt_cookie] returns has the keys [name], [value], [domain], [path],
    [secure] and [httpOnly], and no key besides these, [sameSite] and
    [expires]; its domain and path are never empty, [secure] and [httpOnly]
    are booleans, a [sameSite] is one of the three labels and an [expires]
    is a positive whole number. *)
Theorem adapted_cookie_shape (cookie adapted : gmap string pyval) :
  adapt_cookie (PyDict cookie) = Ok adapted ->
  adapted !! "name" = Some (dict_get_default cookie "Name" (PyStr EmptyString))
  /\ adapted !! "value" = Some (dict_get_default cookie "Value" (PyStr EmptyString))
  /\ (exists v, adapted !! "domain" = Some v /\ truthy v = true)
  /\ (exists v, adapted !! "path" = Some v /\ truthy v = true)
  /\ (exists b, adapted !! "secure" = Some (PyBool b))
  /\ (exists b, adapted !! "httpOnly" = Some (PyBool b))
  /\ (adapted !! "sameSite" = None
      \/ exists label, adapted !! "sameSite" = Some (PyStr label)
                       /\ label ∈ ["Lax"; "Strict"; "None"])
  /\ (adapted !! "expires" = None
      \/ exists z, adapted !! "expires" = Some (PyInt z) /\ 0 < z)
  /\ dom adapted ⊆ list_to_set ["name"; "value"; "domain"; "path"; "secure";
                                "httpOnly"; "sameSite"; "expires"].
Proof.
  intros Hret. destruct (adapt_cookie_inv _ _ Hret) as (_ & e & _ & ->).
  set (label := same_site_label (dict_get cookie "SameSite")).
  assert (Hlabel : label = None
                   \/ exists l, label = Some l /\ l ∈ ["Lax"; "Strict"; "None"]).
  { subst label. destruct (dict_get cookie "SameSite") as [|b|z|q|s|l|m];
      cbn [same_site_label]; try (left; reflexivity).
    - right. eexists. split; [reflexivity|]. destruct b; repeat constructor.
    - right. eexists. split; [reflexivity|].
      destruct (same_site_map_label z) as [H|[H|H]]; cbv zeta in H; rewrite H;
        repeat constructor.
    - destruct (bool_decide (s ∈ ["Lax"; "Strict"; "None"])) eqn:Hs; [|left; reflexivity].
      right. exists s. split; [reflexivity|]. apply bool_decide_eq_true in Hs. exact Hs. }
  repeat split.
  - rewrite with_expires_other by discriminate. destruct label; reflexivity.
  - rewrite with_expires_other by discriminate. destruct label; reflexivity.
  - eexists. split.
    + rewrite with_expires_other by discriminate. destruct label; reflexivity.
    + apply py_or_truthy. reflexivity.
  - eexists. split.
    + rewrite with_expires_other by discriminate. destruct label; reflexivity.
    + apply py_or_truthy. reflexivity.
  - eexists. rewrite with_expires_other by discriminate. destruct label; reflexivity.
  - eexists. rewrite with_expires_other by discriminate. destruct label; reflexivity.
  - rewrite with_expires_same_site, settled_same_site.
    destruct Hlabel as [->|(l & -> & Hl)]; [left; reflexivity|].
    right. exists l. split; [reflexivity | exact Hl].
  - rewrite with_expires_lookup by apply settled_expires.
    destruct (0 <? e) eqn:He; [|left; reflexivity].
    right. exists e. split; [reflexivity|]. apply Z.ltb_lt. exact He.
  - unfold with_expires, settled.
    generalize (dict_get_default cookie "Name" (PyStr EmptyString)).
    generalize (dict_get_default cookie "Value" (PyStr EmptyString)).
    generalize (py_or (dict_get cookie "Domain") (PyStr ".x.com")).
    generalize (py_or (dict_get cookie "Path") (PyStr "/")).
    generalize (truthy (dict_get_default cookie "Secure" (PyBool true))).
    generalize (truthy (dict_get_default cookie "HttpOnly" (PyBool false))).
    intros b1 b2 v1 v2 v3 v4.
    destruct (0 <? e), label; apply (bool_decide_unpack _); vm_compute; exact I.
Qed.

Lemma adapted_cookie_shape_witness :
  adapt_cookie (PyDict scenario_entry) = Ok scenario_cookie
  /\ exists v, scenario_cookie !! "domain" = Some v /\ truthy v = true.
Proof.
  assert (H : adapt_cookie (PyDict scenario_entry) = Ok scenario_cookie) by reflexivity.
  split; [exact H|].
  exact (proj1 (proj2 (proj2 (adapted_cookie_shape scenario_entry scenario_cookie H)))).
Defined.

(** X5: the label of an adapted cookie, by the kind of the [SameSite]
    value.  A boolean counts as an integer, so [true] gives [Strict] and
    [false] gives [Lax]; the integers 1 and 2 give [Strict] and [None] and
    every other integer [Lax]; a text is kept when it is, letter for letter,
    one of the three labels; anything else (no value, null, a float) leaves
    the key out. *)
Theorem same_site_by_kind (cookie adapted : gmap string pyval) :
  adapt_cookie (PyDict cookie) = Ok adapted ->
  adapted !! "sameSite"
  = match dict_get cookie "SameSite" with
    | PyBool b => Some (PyStr (if b then "Strict" else "Lax"))
    | PyInt z =>
        Some (PyStr (if z =? 1 then "Strict" else if z =? 2 then "None" else "Lax"))
    | PyStr s =>
        if bool_decide (s ∈ ["Lax"; "Strict"; "None"]) then Some (PyStr s) else None
    | _ => None
    end.
Proof.
  intros Hret. destruct (adapt_cookie_inv _ _ Hret) as (_ & e & _ & ->).
  rewrite with_expires_same_site, settled_same_site.
  destruct (dict_get cookie "SameSite") as [|b|z|q|s|l|m]; cbn [same_site_label fmap option_fmap option_map];
    try reflexivity.
  - rewrite same_site_map_lookup. reflexivity.
  - destruct (bool_decide (s ∈ ["Lax"; "Strict"; "None"])); reflexivity.
Qed.

Lemma same_site_by_kind_witness :
  exists adapted,
    adapt_cookie (PyDict (<["SameSite" := PyBool true]> scenario_entry)) = Ok adapted
    /\ adapted !! "sameSite" = Some (PyStr "Strict").
Proof.
  destruct (adapt_cookie_returns (<["SameSite" := PyBool true]> scenario_entry) 0)
    as (adapted & Hret & _ & _); [reflexivity | reflexivity |].
  exists adapted. split; [exact Hret|].
  rewrite (same_site_by_kind _ adapted Hret). reflexivity.
Defined.

(** X6: when [adapt_cookie] fails.  On an entry that is a dict it returns
    a cookie when [SameSite] can be hashed and [Expires] is missing, a
    string or a value that counts as false, and raises [TypeError]
    otherwise (a list or a dict as [SameSite], a non-zero number or a
    non-empty list or dict as [Expires]); on anything that is not a dict it
    raises [AttributeError]. *)
Theorem adapt_cookie_failures (item : pyval) :
  (forall cookie, item = PyDict cookie ->
     (same_site_hashable cookie /\ expires_is_text cookie ->
      exists adapted, adapt_cookie item = Ok adapted)
     /\ (~ (same_site_hashable cookie /\ expires_is_text cookie) ->
         adapt_cookie item = Raise TypeError))
  /\ ((forall cookie, item <> PyDict cookie) -> adapt_cookie item = Raise AttributeError).
Proof.
  split.
  - intros cookie ->. split.
    + intros [Hh Ht]. destruct (iso_to_epoch_text cookie Ht) as [e He].
      destruct (adapt_cookie_returns cookie e Hh He) as (adapted & Hret & _).
      exists adapted. exact Hret.
    + intros Hnot. rewrite adapt_cookie_unfold.
      destruct (hashable (dict_get cookie "SameSite")) eqn:Hh; [|reflexivity].
      assert (Hbad : truthy (dict_get cookie "Expires") = true
                     /\ forall s, dict_get cookie "Expires" <> PyStr s).
      { unfold dict_get.
        destruct (cookie !! "Expires") as [v|] eqn:Hv.
        - change (default PyNone (Some v)) with v. destruct (truthy v) eqn:Htruthy.
          + split; [reflexivity|]. intros s ->. apply Hnot. split; [exact Hh|].
            unfold expires_is_text. rewrite Hv. exact I.
          + exfalso. apply Hnot. split; [exact Hh|].
            unfold expires_is_text. rewrite Hv. destruct v; try exact Htruthy; exact I.
        - exfalso. apply Hnot. split; [exact Hh|].
          unfold expires_is_text. rewrite Hv. exact I. }
      destruct Hbad as [Htruthy Hns].
      rewrite (iso_to_epoch_not_text _ Htruthy Hns). reflexivity.
  - intros Hnd. destruct item; try reflexivity. exfalso. exact (Hnd m eq_refl).
Qed.

(** The test of the comprehension: the item has a [Name] that counts as
    true. *)
Definition has_name (item : pyval) : bool :=
  match attr_get item "Name" with
  | Ok name => truthy name
  | Raise _ => false
  end.

(** X7: what the comprehension of [inject_and_open] returns.  When it
    returns, every item of the file is a dict, the list is the adaptation of
    the items with a name, one by one and in their order, so it is no longer
    than the file, and every cookie of it has a [name] that is not empty. *)
Theorem adapted_named_returns (cookies : list pyval) (adapted : list (gmap string pyval)) :
  adapted_named cookies = Ok adapted ->
  Forall (fun item => exists d, item = PyDict d) cookies
  /\ Forall2 (fun item cookie => adapt_cookie item = Ok cookie)
       (List.filter has_name cookies) adapted
  /\ (length adapted <= length cookies)%nat
  /\ Forall (fun cookie : gmap string pyval =>
               exists v, cookie !! "name" = Some v /\ truthy v = true) adapted.
Proof.
  revert adapted. induction cookies as [|item rest IH]; intros adapted Hret.
  - injection Hret as <-. repeat split; constructor.
  - cbn [adapted_named] in Hret. unfold has_name. cbn [List.filter].
    destruct item as [|b|z|q|s|l|d]; try discriminate Hret.
    cbn [attr_get rbind] in Hret. cbn [attr_get].
    destruct (truthy (dict_get d "Name")) eqn:Hname.
    + destruct (adapt_cookie (PyDict d)) as [cookie|x] eqn:Hcookie; [|discriminate].
      cbn [rbind] in Hret.
      destruct (adapted_named rest) as [others|x] eqn:Hrest; [|discriminate].
      injection Hret as <-. destruct (IH others eq_refl) as (Hd & Hf & Hl & Hn).
      repeat split.
      * constructor; [eexists; reflexivity | exact Hd].
      * constructor; [exact Hcookie | exact Hf].
      * cbn [length]. lia.
      * constructor; [|exact Hn].
        destruct (adapt_cookie_inv _ _ Hcookie) as (_ & e & _ & ->).
        exists (dict_get d "Name"). split; [|exact Hname].
        rewrite with_expires_other by discriminate.
        assert (Hsame : dict_get_default d "Name" (PyStr EmptyString) = dict_get d "Name").
        { unfold dict_get, dict_get_default in *.
          destruct (d !! "Name") as [v|]; [reflexivity | discriminate Hname]. }
        rewrite <- Hsame. destruct (same_site_label _); reflexivity.
    + destruct (IH adapted Hret) as (Hd & Hf & Hl & Hn).
      repeat split; try assumption.
      * constructor; [eexists; reflexivity | exact Hd].
      * cbn [length]. lia.
Qed.

Lemma adapted_named_returns_witness :
  adapted_named [PyDict (<["Value" := PyStr "x"]> ∅); PyDict scenario_entry]
  = Ok [scenario_cookie]
  /\ (length [scenario_cookie] <= 2)%nat.
Proof.
  assert (H : adapted_named [PyDict (<["Value" := PyStr "x"]> ∅); PyDict scenario_entry]
              = Ok [scenario_cookie]) by reflexivity.
  split; [exact H|].
  exact (proj1 (proj2 (proj2 (adapted_named_returns _ _ H)))).
Defined.



End ImportPath.

(** ** Further properties of the export path *)

Section ExportPath.
Import Py main.
Set Warnings "-clear-no-such-hyp".

Lemma first_match_none cookies n :
  Forall (fun c => name c <> n) cookies -> first_match cookies n = None.
Proof.
  unfold first_match. induction 1 as [|c rest Hc _ IH]; [reflexivity|].
  cbn [find]. destruct (String.eqb (name c) n) eqn:E; [|exact IH].
  apply String.eqb_eq in E. contradiction.
Qed.

Lemma first_match_here before c after :
  Forall (fun b => name b <> name c) before ->
  first_match (before ++ c :: after) (name c) = Some c.
Proof.
  unfold first_match. induction 1 as [|b rest Hb _ IH]; cbn [app find].
  - rewrite String.eqb_refl. reflexivity.
  - destruct (String.eqb (name b) (name c)) eqn:E; [|exact IH].
    apply String.eqb_eq in E. contradiction.
Qed.

Lemma extract_values_dom cookies names acc :
  dom (extract_values cookies names acc) = list_to_set names ∪ dom acc.
Proof.
  revert acc. induction names as [|n rest IH]; intros acc; cbn [extract_values list_to_set].
  - set_solver.
  - rewrite IH, dom_insert_L. set_solver.
Qed.

Lemma extract_loop_run cookies names acc st :
  extract_loop cookies names acc st
  = (map (fun n => Log (if bool_decide (extracted_value cookies n = EmptyString)
                        then WARNING else INFO)) names,
     Ok (extract_values cookies names acc), st).
Proof.
  revert acc. induction names as [|n rest IH]; intros acc; [reflexivity|].
  cbn [extract_loop extract_values map]. unfold bind.
  destruct (bool_decide (extracted_value cookies n = EmptyString));
    unfold emit; rewrite IH; reflexivity.
Qed.

(** X9: what [extract_cookies] returns.  It reads the jar once, logs one
    line per name (a warning for a name without a value) and leaves the
    state alone; the mapping it returns has exactly the six names as keys;
    a name maps to the value of the first cookie of the jar that bears it,
    whatever its domain and whatever follows it, and to the empty string
    when no cookie bears it. *)
Theorem extract_cookies_first_match (w : world) (st : state) :
  extract_cookies w st
  = (ReadCookies
       :: map (fun n => Log (if bool_decide (extracted_value (jar w) n = EmptyString)
                             then WARNING else INFO)) COOKIE_NAMES,
     Ok (extracted (jar w)), st)
  /\ dom (extracted (jar w)) = list_to_set COOKIE_NAMES
  /\ (forall (before : list browser_cookie) c after,
        jar w = (before ++ c :: after)%list -> name c ∈ COOKIE_NAMES ->
        Forall (fun b => name b <> name c) before ->
        extracted (jar w) !! name c = Some (value c))
  /\ (forall n, n ∈ COOKIE_NAMES -> Forall (fun c => name c <> n) (jar w) ->
        extracted (jar w) !! n = Some EmptyString).
Proof.
  split; [|split; [|split]].
  - unfold extract_cookies, bind, emit. rewrite extract_loop_run. reflexivity.
  - unfold extracted. rewrite extract_values_dom, dom_empty_L. set_solver.
  - intros before c after Hjar Hn Hbefore. unfold extracted.
    rewrite extract_values_lookup by exact Hn.
    unfold extracted_value. rewrite Hjar, first_match_here by exact Hbefore.
    reflexivity.
  - intros n Hn Hnone. apply extracted_absent; [exact Hn|].
    apply first_match_none. exact Hnone.
Qed.

(** X10: the names [main] reports as missing are exactly the keys of the
    mapping whose value is empty, so there is none exactly when every value
    is non-empty; for an extraction result that is when each of the six
    names has a first cookie with a non-empty value. *)
Theorem missing_names_exact (cookies : gmap string string) :
  (forall n, n ∈ missing_names cookies <-> cookies !! n = Some EmptyString)
  /\ (missing_names cookies = [] <->
      forall n v, cookies !! n = Some v -> v <> EmptyString)
  /\ (forall jar,
        missing_names (extracted jar) = [] <->
        Forall (fun n => extracted_value jar n <> EmptyString) COOKIE_NAMES).
Proof.
  assert (Hin : forall (c : gmap string string) n,
             n ∈ missing_names c <-> c !! n = Some EmptyString).
  { intros c n. unfold missing_names. rewrite list_elem_of_fmap. split.
    - intros ([k v] & -> & Hkv). apply list_elem_of_filter in Hkv as [Hv Hkv].
      cbn in Hv. subst v. apply elem_of_map_to_list in Hkv. exact Hkv.
    - intros Hn. exists (n, EmptyString). split; [reflexivity|].
      apply list_elem_of_filter. split; [reflexivity|].
      apply elem_of_map_to_list. exact Hn. }
  assert (Hnil : forall c : gmap string string,
             missing_names c = [] <-> forall n v, c !! n = Some v -> v <> EmptyString).
  { intros c. split.
    - intros Hnone n v Hn ->. apply Hin in Hn. rewrite Hnone in Hn. inversion Hn.
    - intros Hall. destruct (missing_names c) as [|n ns] eqn:Hm; [reflexivity|].
      exfalso. assert (Hn : n ∈ missing_names c) by (rewrite Hm; left).
      apply Hin in Hn. exact (Hall n _ Hn eq_refl). }
  split; [apply Hin|]. split; [apply Hnil|].
  intros jar. rewrite Hnil, Forall_forall. split.
  - intros Hall n Hn. apply (Hall n). unfold extracted.
    apply extract_values_lookup. exact Hn.
  - intros Hall n v Hlook.
    assert (Hn : n ∈ COOKIE_NAMES).
    { assert (Hd : n ∈ dom (extracted jar)) by (apply elem_of_dom; eexists; exact Hlook).
      unfold extracted in Hd. rewrite extract_values_dom, dom_empty_L in Hd.
      set_solver. }
    unfold extracted in Hlook. rewrite extract_values_lookup in Hlook by exact Hn.
    injection Hlook as <-. apply Hall. exact Hn.
Qed.




Lemma str_replace_unchanged c s :
  str_contains c s = false -> str_replace c EmptyString s = s.
Proof.
  induction s as [|a s IH]; [reflexivity|]. cbn [str_contains str_replace].
  destruct (Ascii.eqb a c); [discriminate|]. cbn [orb]. intros H. rewrite (IH H).
  reflexivity.
Qed.

Lemma str_replace_length c s :
  (String.length (str_replace c EmptyString s) <= String.length s)%nat.
Proof.
  induction s as [|a s IH]; [reflexivity|]. cbn [str_replace].
  destruct (Ascii.eqb a c).
  - change (EmptyString +:+ str_replace c EmptyString s)
      with (str_replace c EmptyString s).
    cbn [String.length]. lia.
  - cbn [String.length]. lia.
Qed.

(** X12: the entry of a cookie.  It has exactly the twelve keys of the
    file format; its [Value] is never longer than the value of the cookie
    and is that value, unchanged, exactly when the value holds no double
    quote. *)
Theorem template_keys_and_value (n v x : string) :
  dom (create_cookie_template n v x)
  = list_to_set ["Name"; "Value"; "Path"; "Domain"; "Expires"; "RawExpires";
                 "MaxAge"; "Secure"; "HttpOnly"; "SameSite"; "Raw"; "Unparsed"]
  /\ (exists kept, create_cookie_template n v x !! "Value" = Some (PyStr kept)
                   /\ (String.length kept <= String.length v)%nat)
  /\ (create_cookie_template n v x !! "Value" = Some (PyStr v)
      <-> str_contains dquote v = false).
Proof.
  split; [|split].
  - unfold create_cookie_template.
    generalize (str_replace dquote EmptyString v). intros kept.
    apply (bool_decide_unpack _). vm_compute. exact I.
  - eexists. split; [reflexivity|]. apply str_replace_length.
  - change (create_cookie_template n v x !! "Value")
      with (Some (PyStr (str_replace dquote EmptyString v))).
    split.
    + intros [= H]. rewrite <- H. apply str_replace_strips.
    + intros H. rewrite (str_replace_unchanged _ _ H). reflexivity.
Qed.

(** The cookie the import adapter makes of an exported entry. *)
Definition reimported (n v : string) (expires : Z) : gmap string pyval :=
  <["expires" := PyInt expires]>
  (<["sameSite" := PyStr "Lax"]>
  (<["name" := PyStr n]>
  (<["value" := PyStr v]>
  (<["domain" := PyStr "twitter.com"]>
  (<["path" := PyStr "/"]>
  (<["secure" := PyBool false]>
  (<["httpOnly" := PyBool false]> ∅))))))).

Lemma adapt_template n v s :
  in_era s ->
  inject_cookies.adapt_cookie
    (PyDict (create_cookie_template n v (strftime_iso (gmtime s))))
  = Ok (reimported n (str_replace dquote EmptyString v) s).
Proof.
  intros [Hpos Hera].
  destruct (strptime_strftime_gmtime s) as (t & Hparse & Hts); [lia|].
  rewrite adapt_cookie_unfold.
  change (dict_get (create_cookie_template n v (strftime_iso (gmtime s))) "SameSite")
    with (PyInt 0).
  change (dict_get (create_cookie_template n v (strftime_iso (gmtime s))) "Expires")
    with (PyStr (strftime_iso (gmtime s))).
  rewrite (iso_to_epoch_parsed _ t Hparse), Hts. cbn [hashable rbind].
  unfold with_expires. replace (0 <? s) with true by (symmetry; apply Z.ltb_lt; exact Hpos).
  reflexivity.
Qed.

Lemma adapted_named_template n v x rest :
  n <> EmptyString ->
  inject_cookies.adapted_named (PyDict (create_cookie_template n v x) :: rest)
  = rbind (inject_cookies.adapt_cookie (PyDict (create_cookie_template n v x)))
      (fun cookie =>
         rbind (inject_cookies.adapted_named rest) (fun others => Ok (cookie :: others))).
Proof.
  intros Hn. cbn [inject_cookies.adapted_named].
  change (attr_get (PyDict (create_cookie_template n v x)) "Name") with (Ok (PyStr n)).
  cbn [rbind truthy]. rewrite bool_decide_eq_false_2 by exact Hn. reflexivity.
Qed.

Lemma templates_adapted (names : list string) (cookie_values : gmap string string)
    (d : draws) :
  Forall (fun n => n <> EmptyString) names ->
  in_era (week_stamp d) -> in_era (month_stamp d) ->
  inject_cookies.adapted_named
    (map (fun n => PyDict (create_cookie_template n
                             (default EmptyString (cookie_values !! n))
                             (strftime_iso (gmtime (stamp_of d n)))))
       names)
  = Ok (map (fun n =>
               reimported n
                 (str_replace dquote EmptyString (default EmptyString (cookie_values !! n)))
                 (stamp_of d n))
          names).
Proof.
  intros Hnames Hweek Hmonth.
  assert (Hera : forall n, in_era (stamp_of d n))
    by (intros n; unfold stamp_of; destruct (bool_decide _); assumption).
  induction Hnames as [|n names Hn _ IH]; [reflexivity|]. cbn [map].
  rewrite adapted_named_template by exact Hn.
  rewrite adapt_template by apply Hera. cbn [rbind]. rewrite IH. reflexivity.
Qed.

Lemma COOKIE_NAMES_named : Forall (fun n => n <> EmptyString) COOKIE_NAMES.
Proof. repeat constructor; discriminate. Qed.

(** X13: export then import.  When the two synthesized moments lie after
    the epoch and before the year 10000, the list the import side adapts
    from an exported payload has six cookies, one per name and in the order
    of the names, none dropped whatever the values; each has the value with
    its double quotes removed, the domain [twitter.com] of the template (not
    the [.x.com] the import adapter defaults to), the path [/], [secure] and
    [httpOnly] false, the label [Lax], and the second of its synthesized
    date as [expires]. *)
Theorem exported_payload_reimported (cookie_values : gmap string string) (d : draws) :
  in_era (week_stamp d) -> in_era (month_stamp d) ->
  inject_cookies.adapted_named (map PyDict (build_cookie_payload cookie_values d))
  = Ok (map (fun n =>
               reimported n
                 (str_replace dquote EmptyString (default EmptyString (cookie_values !! n)))
                 (stamp_of d n))
          COOKIE_NAMES).
Proof.
  intros Hweek Hmonth.
  rewrite <- (templates_adapted COOKIE_NAMES cookie_values d COOKIE_NAMES_named
                Hweek Hmonth).
  unfold build_cookie_payload. rewrite map_map. reflexivity.
Qed.

Lemma exported_payload_reimported_witness :
  in_era (week_stamp example_draws)
  /\ in_era (month_stamp example_draws)
  /\ exists adapted,
       inject_cookies.adapted_named
         (map PyDict (build_cookie_payload example_values example_draws))
       = Ok adapted
       /\ length adapted = 6%nat.
Proof.
  assert (Hweek : in_era (week_stamp example_draws))
    by (vm_compute; split; reflexivity).
  assert (Hmonth : in_era (month_stamp example_draws))
    by (vm_compute; split; reflexivity).
  split; [exact Hweek|]. split; [exact Hmonth|].
  eexists. split;
    [exact (exported_payload_reimported example_values example_draws Hweek Hmonth)|].
  reflexivity.
Defined.

End ExportPath.

(** ** Runs and what they leave *)

Section Running.
Import Py.

(** [runs m st P]: the events, the result and the final state of [m] run
    from [st] satisfy [P]. *)
Definition runs {A} (m : M A) (st : state)
    (P : list event -> result A -> state -> Prop) : Prop :=
  P (trace (m st)) (outcome (m st)) (snd (m st)).

Context {A : Type}.
Implicit Types (P : list event -> result A -> state -> Prop) (st : state).

Lemma runs_ret (a : A) st P : P [] (Ok a) st -> runs (ret a) st P.
Proof. intros H. exact H. Qed.

Lemma runs_raise e st P : P [] (Raise e) st -> runs (raise e) st P.
Proof. intros H. exact H. Qed.

Lemma runs_emit ev st (P : list event -> result unit -> state -> Prop) :
  P [ev] (Ok tt) st -> runs (emit ev) st P.
Proof. intros H. exact H. Qed.

Lemma runs_get_state st (P : list event -> result state -> state -> Prop) :
  P [] (Ok st) st -> runs get_state st P.
Proof. intros H. exact H. Qed.

Lemma runs_put_state st' st (P : list event -> result unit -> state -> Prop) :
  P [] (Ok tt) st' -> runs (put_state st') st P.
Proof. intros H. exact H. Qed.

Lemma runs_eq (m : M A) st run P :
  m st = run -> P (trace run) (outcome run) (snd run) -> runs m st P.
Proof. intros <- H. exact H. Qed.

Lemma runs_bind {B} (m : M B) (k : B -> M A) st P :
  runs m st (fun t r st' =>
               match r with
               | Ok b => runs (k b) st' (fun t' r' st'' => P (t ++ t')%list r' st'')
               | Raise e => P t (Raise e) st'
               end) ->
  runs (bind m k) st P.
Proof.
  unfold runs, bind, trace, outcome. destruct (m st) as [[t [b|e]] st']; cbn.
  - destruct (k b st') as [[t' r] st'']. cbn. intros H. exact H.
  - intros H. exact H.
Qed.

Lemma runs_try_except (body : M A) handler st P :
  runs body st (fun t r st' =>
                  match r with
                  | Ok a => P t (Ok a) st'
                  | Raise e =>
                      if is_Exception e
                      then runs (handler e) st'
                             (fun t' r' st'' => P (t ++ t')%list r' st'')
                      else P t (Raise e) st'
                  end) ->
  runs (try_except body handler) st P.
Proof.
  unfold runs, try_except, trace, outcome. destruct (body st) as [[t [a|e]] st']; cbn.
  - intros H. exact H.
  - destruct (is_Exception e); [|intros H; exact H].
    destruct (handler e st') as [[t' r] st'']. cbn. intros H. exact H.
Qed.

Lemma runs_try_finally (body : M A) cleanup st P :
  runs body st (fun t r st' =>
                  runs cleanup st'
                    (fun t' done st'' =>
                       P (t ++ t')%list
                         (match done with Ok _ => r | Raise e => Raise e end) st'')) ->
  runs (try_finally body cleanup) st P.
Proof.
  unfold runs, try_finally, trace, outcome.
  destruct (body st) as [[t r] st']; cbn.
  destruct (cleanup st') as [[t' [u|x]] st'']; cbn; intros H; exact H.
Qed.

End Running.

(** Splits on the innermost condition a computation waits for. *)
Ltac split_on x :=
  lazymatch x with
  | context [match ?c with _ => _ end] => split_on c
  | _ => destruct x eqn:?
  end.

Ltac run_simpl :=
  cbv beta iota zeta
    delta [Py.trace Py.outcome fst snd Py.is_Exception
           Py.pages Py.probes_done Py.browser_bound].

(** ** The steps of the orchestrator *)

Section Steps.
Import Py main.

(** *** Pages *)

(** The page a context without pages is given. *)
Definition first_page (n : nat) : list event :=
  match n with O => [NewPage] | S _ => [] end.

(** The events by which a run settles on its one page when [n] pages
    are open: the closing of every page but the first, and the opening of a
    page when there is none. *)
Definition settle_pages (n : nat) : list event :=
  (map ClosePage (seq 1 (Nat.pred n)) ++ first_page n)%list.

Lemma close_extra_eq index count st :
  close_extra index count st = (map ClosePage (seq index count), Ok tt, st).
Proof.
  revert index. induction count as [|count IH]; intros index; [reflexivity|].
  cbn [close_extra seq map]. unfold bind, emit. rewrite IH. reflexivity.
Qed.

Lemma get_primary_page_eq st :
  get_primary_page st
  = (settle_pages (pages st), Ok tt, mk_state 1 (probes_done st) (browser_bound st)).
Proof.
  unfold get_primary_page, bind, get_state, put_state, settle_pages.
  rewrite close_extra_eq. destruct (pages st); reflexivity.
Qed.



(** *** The probe *)

(** The selector of the control only an authenticated session shows. *)
Definition post_selector : string :=
  "span:has-text(" +:+ String dquote "Post" +:+ String dquote ")".

Lemma is_logged_in_eq w timeout st :
  is_logged_in w timeout st
  = ((settle_pages (pages st) ++ Goto "https://x.com/home"
        :: match probes w (probes_done st) with
           | NavigationFailed => []
           | _ => [WaitForTimeout 3000; WaitForSelector post_selector timeout]
           end)%list,
     match probes w (probes_done st) with
     | SignalFound => Ok true
     | SignalTimeout => Ok false
     | NavigationFailed => Raise PlaywrightError
     end,
     mk_state 1 (S (probes_done st)) (browser_bound st)).
Proof.
  unfold is_logged_in, bind. rewrite get_primary_page_eq.
  unfold get_state, put_state, emit, raise, ret. cbn [pages probes_done browser_bound].
  destruct (probes w (probes_done st)); reflexivity.
Qed.


(** *** The connection *)

(** The address [connect_existing_browser] connects to. *)
Definition CDP_ENDPOINT (w : world) : string :=
  getenv w "CDP_ENDPOINT" "http://localhost:9222".

Lemma connect_existing_browser_eq w st :
  connect_existing_browser w st
  = (Log INFO :: ConnectOverCdp (CDP_ENDPOINT w)
       :: (if cdp_reachable w then
             if has_context w then (first_page (pages st) ++ [Log INFO])%list else []
           else []),
     (if cdp_reachable w then if has_context w then Ok tt else Raise RuntimeError
      else Raise PlaywrightError),
     if cdp_reachable w then
       if has_context w
       then mk_state (Nat.max 1 (pages st)) (probes_done st) (browser_bound st)
       else st
     else st).
Proof.
  unfold connect_existing_browser, bind, emit, raise, ret, get_state, put_state,
    CDP_ENDPOINT, first_page.
  destruct (cdp_reachable w), (has_context w); cbn; try reflexivity.
  destruct st as [[|n] d b]; reflexivity.
Qed.

(** X16: how [connect_existing_browser] ends.  It connects once, to the
    address of [CDP_ENDPOINT] when the variable is set, even to the empty
    string, and to [http://localhost:9222] when it is not.  It returns
    exactly when the browser is reachable and has a context; an unreachable
    browser is an error of the driver, a browser without context a
    [RuntimeError].  Where it returns at least one page is open, and it opens
    a page only where there was none. *)
Theorem connect_existing_browser_cases (w : world) (st : state) :
  (exists rest,
     trace (connect_existing_browser w st)
     = Log INFO :: ConnectOverCdp (default "http://localhost:9222"
                                     (environ w !! "CDP_ENDPOINT")) :: rest
     /\ forall endpoint, ConnectOverCdp endpoint ∉ rest)
  /\ (outcome (connect_existing_browser w st) = Ok tt
      <-> cdp_reachable w = true /\ has_context w = true)
  /\ (outcome (connect_existing_browser w st) = Raise RuntimeError
      <-> cdp_reachable w = true /\ has_context w = false)
  /\ (outcome (connect_existing_browser w st) = Raise PlaywrightError
      <-> cdp_reachable w = false)
  /\ (outcome (connect_existing_browser w st) = Ok tt ->
        snd (connect_existing_browser w st)
        = mk_state (Nat.max 1 (pages st)) (probes_done st) (browser_bound st))
  /\ (NewPage ∈ trace (connect_existing_browser w st)
      <-> cdp_reachable w = true /\ has_context w = true /\ pages st = O).
Proof.
  rewrite connect_existing_browser_eq. unfold trace, outcome. cbn [fst snd].
  split.
  { eexists. split; [reflexivity|]. intros endpoint Hin.
    destruct (cdp_reachable w), (has_context w), (pages st); cbn in Hin;
      repeat (apply elem_of_cons in Hin as [Hin|Hin]; [discriminate|]);
      inversion Hin. }
  destruct (cdp_reachable w), (has_context w), (pages st) as [|n] eqn:Hp;
    cbn [first_page app].
  all: split; [split; [intros H | intros [H1 H2]]; first [discriminate | auto]|].
  all: split; [split; [intros H | intros [H1 H2]]; first [discriminate | auto]|].
  all: split; [split; intros H; first [discriminate | auto]|].
  all: split; [intros H; first [discriminate | reflexivity]|].
  all: split; [intros H | intros (H1 & H2 & H3)];
    first [discriminate | repeat constructor | idtac].
  all: repeat (apply elem_of_cons in H as [H|H]; [discriminate|]); inversion H.
Qed.

(** *** The token *)

(** The cookie [login_with_token] injects. *)
Definition login_cookie (w : world) (auth_token : string) : gmap string pyval :=
  <["name" := PyStr "auth_token"]>
  (<["value" := PyStr auth_token]>
  (<["domain" := PyStr ".x.com"]>
  (<["path" := PyStr "/"]>
  (<["expires" := PyInt (int_of_float (login_clock w) + 365 * 24 * 60 * 60)]>
  (<["secure" := PyBool true]>
  (<["httpOnly" := PyBool false]>
  (<["sameSite" := PyStr "Lax"]> ∅))))))).

Lemma login_with_token_eq w token st :
  login_with_token w token st
  = ((settle_pages (pages st)
      ++ [Log INFO; Goto "https://x.com"; WaitForTimeout 5000;
          AddCookies [login_cookie w token]]
      ++ if cookies_accepted w [login_cookie w token]
         then Log INFO :: Goto "https://x.com/home"
              :: match probes w (probes_done st) with
                 | NavigationFailed => []
                 | SignalFound =>
                     [WaitForTimeout 3000; WaitForSelector post_selector 10000; Log SUCCESS]
                 | SignalTimeout =>
                     [WaitForTimeout 3000; WaitForSelector post_selector 10000; Log ERROR]
                 end
         else [])%list,
     (if cookies_accepted w [login_cookie w token]
      then match probes w (probes_done st) with
           | SignalFound => Ok true
           | SignalTimeout => Ok false
           | NavigationFailed => Raise PlaywrightError
           end
      else Raise PlaywrightError),
     mk_state 1 (if cookies_accepted w [login_cookie w token]
                 then S (probes_done st) else probes_done st) (browser_bound st)).
Proof.
  unfold login_with_token. fold (login_cookie w token).
  unfold bind at 1. rewrite get_primary_page_eq.
  cbv beta iota delta [bind emit ret raise].
  destruct (cookies_accepted w [login_cookie w token]).
  - cbv beta iota. rewrite is_logged_in_eq.
    cbn [pages probes_done browser_bound settle_pages first_page Nat.pred seq map app].
    destruct (probes w (probes_done st)); cbn [app]; rewrite <- ?app_assoc; reflexivity.
  - cbv beta iota. rewrite <- ?app_assoc; reflexivity.
Qed.


(** *** The file *)

Lemma save_cookies_eq w username payload st :
  save_cookies w username payload st
  = if output_writable w
    then ([WriteFile (OUTPUT_DIR w +:+ "/" +:+ username +:+ "_twitter_cookies.json")
             payload;
           Log SUCCESS],
          Ok (OUTPUT_DIR w +:+ "/" +:+ username +:+ "_twitter_cookies.json"), st)
    else ([], Raise OSError, st).
Proof.
  unfold save_cookies, bind, emit, ret, raise. destruct (output_writable w); reflexivity.
Qed.

Lemma extract_cookies_eq w st :
  extract_cookies w st
  = (ReadCookies
       :: map (fun n => Log (if bool_decide (extracted_value (jar w) n = EmptyString)
                             then WARNING else INFO)) COOKIE_NAMES,
     Ok (extracted (jar w)), st).
Proof. unfold extract_cookies, bind, emit. rewrite extract_loop_run. reflexivity. Qed.



(** The injector beside it, after the export. *)
Definition exported_file_world : inject_cookies.world :=
  inject_cookies.mk_world "/srv/cookies" (fun _ => true)
    (fun _ =>
       inject_cookies.Json
         (PyList (map PyDict (build_cookie_payload example_values example_draws))))
    true true 1 (fun _ => true) true.


(** *** The validator *)

Definition skips_test (w : world) : bool :=
  String.eqb (str_lower (getenv w "SKIP_SCRAPER_TEST" EmptyString)) "true".

Definition test_query (w : world) (username : string) : string :=
  match environ w !! "SCRAPER_TEST_QUERY" with
  | Some q => if bool_decide (q = EmptyString) then "from:" +:+ username else q
  | None => "from:" +:+ username
  end.

Definition test_proxy (w : world) : string :=
  strip (getenv w "TERMINAL_RPOXY" EmptyString).

(** The command line of the validator. *)
Definition test_command (w : world) (cookie_path username : string) : list string :=
  ([PROJECT_ROOT w +:+ "/twitter-scraper/twitter-scraper"; "-cookies"; cookie_path;
    "-query"; test_query w username; "-count"; getenv w "SCRAPER_TEST_COUNT" "5"; "-json"]
   ++ if bool_decide (test_proxy w = EmptyString) then [] else ["-proxy"; test_proxy w])%list.

Lemma run_scraper_smoke_test_eq w cookie_path username st :
  run_scraper_smoke_test w cookie_path username st
  = if skips_test w then ([Log INFO], Ok tt, st)
    else if scraper_binary_exists w then
      match scraper_run w with
      | Exited 0 =>
          ([Log INFO; RunProcess (test_command w cookie_path username); Log SUCCESS],
           Ok tt, st)
      | Exited _ =>
          ([Log INFO; RunProcess (test_command w cookie_path username); Log ERROR],
           Raise CalledProcessError, st)
      | NotExecutable =>
          ([Log INFO; RunProcess (test_command w cookie_path username); Log ERROR],
           Raise FileNotFoundError, st)
      end
    else ([Log ERROR], Raise FileNotFoundError, st).
Proof.
  unfold run_scraper_smoke_test, test_command, test_query, test_proxy.
  fold (skips_test w). destruct (skips_test w); [reflexivity|].
  destruct (scraper_binary_exists w); [|reflexivity]. cbn [negb].
  cbv beta iota zeta delta [bind emit raise].
  destruct (bool_decide (strip (getenv w "TERMINAL_RPOXY" "") = ""));
    destruct (scraper_run w) as [[|p|p]|]; reflexivity.
Qed.


(** *** The whole run *)

(** The account and the token of a run, as [main] reads them. *)
Definition X_ACCOUNT (w : world) : string := strip (getenv w "X_ACCOUNT" EmptyString).

Definition X_AUTH_TOKEN (w : world) : string :=
  strip (getenv w "X_AUTH_TOKEN" EmptyString).

(** The file a run exports to. *)
Definition output_path (w : world) : string :=
  OUTPUT_DIR w +:+ "/" +:+ X_ACCOUNT w +:+ "_twitter_cookies.json".

(** The events that change something outside the run: the connection and
    its end, the cookie store of the browser, the file, the validator. *)
Definition salient (ev : event) : bool :=
  match ev with
  | ConnectOverCdp _ | AddCookies _ | WriteFile _ _ | RunProcess _ | CloseBrowser => true
  | _ => false
  end.

(** The token is injected: the first probe timed out and there is a token. *)
Definition injects (w : world) : bool :=
  match probes w 0 with
  | SignalTimeout => if bool_decide (X_AUTH_TOKEN w = EmptyString) then false else true
  | _ => false
  end.

(** The session is authenticated when the extraction starts: the first
    probe saw the control, or it timed out, the token was injected and taken,
    and the second probe saw the control. *)
Definition verified (w : world) : bool :=
  match probes w 0 with
  | SignalFound => true
  | SignalTimeout =>
      if bool_decide (X_AUTH_TOKEN w = EmptyString) then false
      else if cookies_accepted w [login_cookie w (X_AUTH_TOKEN w)]
           then match probes w 1 with SignalFound => true | _ => false end
           else false
  | NavigationFailed => false
  end.

(** No name is missing from the extraction. *)
Definition complete (w : world) : bool :=
  match missing_names (extracted (jar w)) with [] => true | _ :: _ => false end.

Definition effects (w : world) : list event :=
  if bool_decide (X_ACCOUNT w = EmptyString) then []
  else
    ConnectOverCdp (CDP_ENDPOINT w)
    :: (if cdp_reachable w then
          if has_context w then
            (if injects w then [AddCookies [login_cookie w (X_AUTH_TOKEN w)]] else [])
            ++ (if verified w then
                  if complete w then
                    if output_writable w then
                      WriteFile (output_path w)
                        (build_cookie_payload (extracted (jar w)) (export_draws w))
                      :: (if skips_test w then []
                          else if scraper_binary_exists w
                               then [RunProcess
                                       (test_command w (output_path w) (X_ACCOUNT w))]
                               else [])
                    else []
                  else []
                else [])
            ++ [CloseBrowser]
          else []
        else [])%list.

Lemma settle_pages_salient n : List.filter salient (settle_pages n) = [].
Proof.
  unfold settle_pages, first_page. rewrite List.filter_app.
  replace (List.filter salient (match n with O => [NewPage] | S _ => [] end))
    with (@nil event) by (destruct n; reflexivity).
  rewrite app_nil_r. generalize 1%nat. induction (Nat.pred n) as [|k IH]; intros i;
    [reflexivity | apply IH].
Qed.

Lemma first_page_salient n : List.filter salient (first_page n) = [].
Proof. destruct n; reflexivity. Qed.

(** Follows a run of the orchestrator step by step. *)
Ltac run_step :=
  lazymatch goal with
  | |- runs (bind _ _) _ _ => apply runs_bind
  | |- runs (ret _) _ _ => apply runs_ret
  | |- runs (raise _) _ _ => apply runs_raise
  | |- runs (emit _) _ _ => apply runs_emit
  | |- runs get_state _ _ => apply runs_get_state
  | |- runs (put_state _) _ _ => apply runs_put_state
  | |- runs (try_except _ _) _ _ => apply runs_try_except
  | |- runs (try_finally _ _) _ _ => apply runs_try_finally
  | |- runs (connect_existing_browser _) _ _ =>
      eapply runs_eq; [apply connect_existing_browser_eq|]
  | |- runs (is_logged_in _ _) _ _ => eapply runs_eq; [apply is_logged_in_eq|]
  | |- runs (login_with_token _ _) _ _ => eapply runs_eq; [apply login_with_token_eq|]
  | |- runs (extract_cookies _) _ _ => eapply runs_eq; [apply extract_cookies_eq|]
  | |- runs (save_cookies _ _ _) _ _ => eapply runs_eq; [apply save_cookies_eq|]
  | |- runs (run_scraper_smoke_test _ _ _) _ _ =>
      eapply runs_eq; [apply run_scraper_smoke_test_eq|]
  | |- runs (if ?b then _ else _) _ _ => split_on b
  | |- runs (match ?x with _ => _ end) _ _ => split_on x
  | |- match ?x with _ => _ end => split_on x
  end; run_simpl.

Lemma main_effects w n :
  List.filter salient (trace (main w (initial n))) = effects w.
Proof.
  change (runs (main w) (initial n) (fun t _ _ => List.filter salient t = effects w)).
  unfold main, effects, injects, verified, complete, output_path,
    X_ACCOUNT, X_AUTH_TOKEN, initial.
  repeat run_step.
  all: rewrite ?List.filter_app, ?settle_pages_salient.
  all: cbn [List.filter salient].
  all: rewrite ?List.filter_app, ?first_page_salient.
  all: reflexivity.
Qed.


Lemma filter_salient (f : event -> bool) (t : list event) :
  (forall ev, f ev = true -> salient ev = true) ->
  List.filter f t = List.filter f (List.filter salient t).
Proof.
  intros Hsub. induction t as [|ev t IH]; [reflexivity|]. cbn [List.filter].
  destruct (f ev) eqn:Hf.
  - rewrite (Hsub ev Hf). cbn [List.filter]. rewrite Hf, IH. reflexivity.
  - destruct (salient ev); [cbn [List.filter]; rewrite Hf|]; exact IH.
Qed.

(** Splits on the conditions the effects of a run depend on. *)
Ltac effects_cases :=
  unfold effects, injects, verified, complete;
  repeat (match goal with
          | |- context [match ?c with _ => _ end] => split_on c
          end; cbn [andb negb app]);
  repeat match goal with
    | H : bool_decide _ = true |- _ => apply bool_decide_eq_true in H
    | H : bool_decide _ = false |- _ => apply bool_decide_eq_false in H
    end.

Ltac in_effects H :=
  repeat (apply elem_of_cons in H as [H|H];
          [first [discriminate H
                 |injection H as ?; subst;
                  repeat split;
                  first [assumption | reflexivity | congruence
                        | solve [repeat constructor]]]|]);
  solve [inversion H].


(** The events that open and end the connection to the browser. *)
Definition is_connection (ev : event) : bool :=
  match ev with
  | ConnectOverCdp _ | CloseBrowser => true
  | _ => false
  end.

(** X21: the connection of a run.  Without an account name [main] logs an
    error and touches nothing.  With one it connects exactly once, to the
    address of [CDP_ENDPOINT], and closes the browser exactly once, after
    any injection, write or validator run, when the browser was reachable and
    had a context, whatever failed in between.  A browser that is reachable but has no
    context is connected to and never closed. *)
Theorem main_connects_and_closes_once (w : world) (n : nat) :
  (forall st, X_ACCOUNT w = EmptyString -> main w st = ([Log ERROR], Ok tt, st))
  /\ List.filter is_connection (trace (main w (initial n)))
     = (if bool_decide (X_ACCOUNT w = EmptyString) then []
        else ConnectOverCdp (CDP_ENDPOINT w)
             :: if cdp_reachable w && has_context w then [CloseBrowser] else [])
  /\ (cdp_reachable w = true -> has_context w = true ->
      X_ACCOUNT w <> EmptyString ->
      exists before,
        List.filter salient (trace (main w (initial n))) = (before ++ [CloseBrowser])%list
        /\ CloseBrowser ∉ before).
Proof.
  split; [|split].
  - intros st Hname. unfold main. fold (X_ACCOUNT w).
    rewrite bool_decide_eq_true_2 by exact Hname. reflexivity.
  - rewrite (filter_salient is_connection) by (intros [] Hev; first [discriminate | reflexivity]).
    rewrite main_effects. effects_cases; reflexivity.
  - intros Hcdp Hctx Hname. rewrite main_effects. unfold effects.
    rewrite bool_decide_eq_false_2, Hcdp, Hctx by exact Hname.
    rewrite app_assoc, app_comm_cons. eexists. split; [reflexivity|].
    intros Hin. apply elem_of_cons in Hin as [Hin|Hin]; [discriminate|].
    apply elem_of_app in Hin as [Hin|Hin].
    + destruct (injects w); in_effects Hin.
    + destruct (verified w), (complete w), (output_writable w), (skips_test w),
        (scraper_binary_exists w); in_effects Hin.
Qed.




End Steps.

(** ** From the export to the injection *)

Section EndToEnd.
Import Py.

(** The cookies the injector makes of an exported payload. *)
Definition reimported_payload (cookie_values : gmap string string) (d : main.draws)
  : list (gmap string pyval) :=
  map (fun n =>
         reimported n
           (str_replace dquote EmptyString (default EmptyString (cookie_values !! n)))
           (stamp_of d n))
      main.COOKIE_NAMES.

(** X25: the injector on an exported file.  Let the file the injector
    resolves hold a payload as [main.py] builds it, with both synthesized
    moments after the epoch and before the year 10000, and let the browser be
    reachable, have a context, take the cookies and open the page.  Then the
    injector returns; it reads that file once, connects to the address it is
    given, opens a page only where there is none, adds once the six cookies
    of the payload, in the order of the names, opens [https://x.com] and
    closes the browser last. *)
Theorem exported_file_is_injected (w : inject_cookies.world) (a : inject_cookies.args)
    (path : string) (cookie_values : gmap string string) (d : main.draws) (st : state) :
  in_era (week_stamp d) -> in_era (month_stamp d) ->
  inject_cookies.resolve_cookie_file w a = Ok path ->
  inject_cookies.file_content w path
  = inject_cookies.Json (PyList (map PyDict (main.build_cookie_payload cookie_values d))) ->
  inject_cookies.cdp_reachable w = true ->
  inject_cookies.has_context w = true ->
  inject_cookies.cookies_accepted w (reimported_payload cookie_values d) = true ->
  inject_cookies.navigation_ok w = true ->
  inject_cookies.main w a st
  = ((OpenRead path :: Log INFO :: Log INFO
        :: ConnectOverCdp (inject_cookies.endpoint a)
        :: match pages st with O => [NewPage] | S _ => [] end
        ++ [Log INFO; AddCookies (reimported_payload cookie_values d); Log SUCCESS;
            Goto "https://x.com"; Log SUCCESS; CloseBrowser])%list,
     Ok tt,
     mk_state (Nat.max 1 (pages st)) (probes_done st) (browser_bound st))
  /\ length (reimported_payload cookie_values d) = 6%nat
  /\ map (fun cookie : gmap string pyval => cookie !! "name")
       (reimported_payload cookie_values d)
     = map (fun n => Some (PyStr n)) main.COOKIE_NAMES.
Proof.
  intros Hweek Hmonth Hpath Hfile Hcdp Hctx Htaken Hnav.
  split; [|split; reflexivity].
  set (cookies := map PyDict (main.build_cookie_payload cookie_values d)) in *.
  assert (Hload : inject_cookies.load_cookies w path st = ([OpenRead path], Ok cookies, st)).
  { unfold inject_cookies.load_cookies, bind, emit, ret. rewrite Hfile. reflexivity. }
  assert (Hinject :
            forall endpoint,
              inject_cookies.inject_and_open w endpoint cookies st
              = ((Log INFO :: ConnectOverCdp endpoint
                    :: match pages st with O => [NewPage] | S _ => [] end
                    ++ [Log INFO; AddCookies (reimported_payload cookie_values d);
                        Log SUCCESS; Goto "https://x.com"; Log SUCCESS; CloseBrowser])%list,
                 Ok tt,
                 mk_state (Nat.max 1 (pages st)) (probes_done st) (browser_bound st))).
  { intros endpoint.
    unfold inject_cookies.inject_and_open, inject_cookies.ensure_context.
    assert (Hadapted : inject_cookies.adapted_named cookies
                       = Ok (reimported_payload cookie_values d)).
    { unfold reimported_payload.
      rewrite <- (templates_adapted main.COOKIE_NAMES cookie_values d
                    COOKIE_NAMES_named Hweek Hmonth).
      subst cookies. unfold main.build_cookie_payload. rewrite map_map. reflexivity. }
    rewrite Hadapted, Hcdp, Hctx, Hnav. cbn [negb].
    assert (Hsome : exists first others,
               reimported_payload cookie_values d = first :: others)
      by (eexists; eexists; reflexivity).
    destruct Hsome as (first & others & Hsome). rewrite Hsome in *.
    cbv beta iota delta [bind emit ret raise lift get_state put_state].
    rewrite Htaken. destruct st as [[|n] done bound]; reflexivity. }
  unfold inject_cookies.main. rewrite Hpath.
  cbv beta iota delta [bind lift]. rewrite Hload. cbv beta iota delta [emit].
  rewrite Hinject. reflexivity.
Qed.

Lemma exported_file_is_injected_witness :
  in_era (week_stamp example_draws)
  /\ in_era (month_stamp example_draws)
  /\ inject_cookies.resolve_cookie_file exported_file_world
       (inject_cookies.mk_args None "http://localhost:9222" "alice")
     = Ok "/srv/cookies/alice_twitter_cookies.json"
  /\ outcome (inject_cookies.main exported_file_world
                (inject_cookies.mk_args None "http://localhost:9222" "alice")
                (initial 1))
     = Ok tt.
Proof.
  assert (Hweek : in_era (week_stamp example_draws))
    by (vm_compute; split; reflexivity).
  assert (Hmonth : in_era (month_stamp example_draws))
    by (vm_compute; split; reflexivity).
  assert (Hpath : inject_cookies.resolve_cookie_file exported_file_world
                    (inject_cookies.mk_args None "http://localhost:9222" "alice")
                  = Ok "/srv/cookies/alice_twitter_cookies.json") by reflexivity.
  split; [exact Hweek|]. split; [exact Hmonth|]. split; [exact Hpath|].
  destruct (exported_file_is_injected exported_file_world
              (inject_cookies.mk_args None "http://localhost:9222" "alice")
              "/srv/cookies/alice_twitter_cookies.json" example_values example_draws
              (initial 1) Hweek Hmonth Hpath eq_refl eq_refl eq_refl eq_refl eq_refl)
    as (Hrun & _).
  rewrite Hrun. reflexivity.
Defined.

End EndToEnd.
